(** * ATS resume analyser: the request pipeline of [main.py]

    A shallow embedding of the Flask application [main.py] (text
    extraction, the three prompt stages and the [/analyze] handler) and
    the properties of its specification.

    Python values are modelled as follows.
    - [str] is [string]; a character is a code point below 256.
    - [str | None] is [option string].
    - An exception is modelled by its message, the value of [str(e)].
    - A function that may raise and that reads or changes the process
      state (file system, standard output, the remote generation
      service) is a computation in the monad [M] below.
    - The libraries the program calls but does not contain (PyPDF2, the
      JSON decoder, the generation client) are parameters of the
      development; a reference instance of each is given for the
      examples. *)

From Stdlib Require Import String Ascii ZArith List Bool Lia.
From stdpp Require Import gmap strings list pretty.

Open Scope string_scope.

(* ===================================================================== *)
(** ** Python basics *)
(* ===================================================================== *)

Module Py.

(** An exception, by its message [str(e)]. *)
Definition exn := string.

(** The outcome of a call that may raise. *)
Definition result (A : Type) := (exn + A)%type.

Definition LF : string := String (ascii_of_nat 10) EmptyString.
Definition DQ : string := String (ascii_of_nat 34) EmptyString.

(** [str(x)] of a value that is a string or [None], as an f-string
    formats it. *)
Definition str (x : option string) : string :=
  match x with
  | Some s => s
  | None => "None"
  end.

(** Truth value of a [str | None]: [None] and the empty string are
    false. *)
Definition truthy (x : option string) : bool :=
  match x with
  | Some (String _ _) => true
  | _ => false
  end.

(** [x or ""] for a [str | None]. *)
Definition or_empty (x : option string) : string :=
  if truthy x then str x else "".

(** [str(n)] of a natural number. *)
Definition str_nat (n : nat) : string := pretty n.

(** [len(s)] *)
Definition len (s : string) : nat := String.length s.

End Py.

(* ===================================================================== *)
(** ** JSON values, [json.dumps] and the AnalysisResult schema *)
(* ===================================================================== *)

Module Json.

(** The Python values the [json] module reads and writes: [None],
    [bool], [int], [float] (kept as its literal, no floating point
    arithmetic is done on it), [str], [list] and [dict] (insertion
    ordered, as an association list). *)
#[warnings="-register-all"]
Inductive json : Type :=
| JNull
| JBool (b : bool)
| JInt (z : Z)
| JFloat (literal : string)
| JStr (s : string)
| JArr (items : list json)
| JObj (pairs : list (string * json)).

(** [d.get(k)] on the pairs of a [dict]. *)
Fixpoint get (k : string) (pairs : list (string * json)) : option json :=
  match pairs with
  | [] => None
  | (k', v) :: rest => if String.eqb k k' then Some v else get k rest
  end.

(** [v.get(k)] when [v] is a [dict]. *)
Definition member (k : string) (v : json) : option json :=
  match v with
  | JObj pairs => get k pairs
  | _ => None
  end.

(** [d[k] = v] on the pairs of a [dict]: an existing key keeps its
    position, a new key is appended. *)
Fixpoint set (k : string) (v : json) (pairs : list (string * json))
  : list (string * json) :=
  match pairs with
  | [] => [(k, v)]
  | (k', v') :: rest =>
      if String.eqb k k' then (k', v) :: rest else (k', v') :: set k v rest
  end.

(** [dict(pairs)] *)
Definition dict (pairs : list (string * json)) : list (string * json) :=
  fold_left (fun d kv => set (fst kv) (snd kv) d) pairs [].

(** *** [json.dumps] with its default arguments
    ([ensure_ascii=True], separators [", "] and [": "]). *)

Definition hex_digit (n : nat) : ascii :=
  nth n (list_ascii_of_string "0123456789abcdef") "0"%char.

(** [\uXXXX] for a code point below 256. *)
Definition u_escape (c : ascii) : string :=
  let n := nat_of_ascii c in
  "\u00" +:+ String (hex_digit (n / 16)) (String (hex_digit (n mod 16)) "").

(** One character of [encode_basestring_ascii]. *)
Definition escape_char (c : ascii) : string :=
  let n := nat_of_ascii c in
  if Nat.eqb n 34 then "\" +:+ Py.DQ
  else if Nat.eqb n 92 then "\\"
  else if Nat.eqb n 8 then "\b"
  else if Nat.eqb n 12 then "\f"
  else if Nat.eqb n 10 then "\n"
  else if Nat.eqb n 13 then "\r"
  else if Nat.eqb n 9 then "\t"
  else if (Nat.leb 32 n && Nat.leb n 126)%bool then String c ""
  else u_escape c.

Fixpoint escape (s : string) : string :=
  match s with
  | EmptyString => ""
  | String c rest => escape_char c +:+ escape rest
  end.

Definition dumps_str (s : string) : string := Py.DQ +:+ escape s +:+ Py.DQ.

Fixpoint dumps (v : json) : string :=
  match v with
  | JNull => "null"
  | JBool true => "true"
  | JBool false => "false"
  | JInt z => pretty z
  | JFloat literal => literal
  | JStr s => dumps_str s
  | JArr [] => "[]"
  | JArr (x :: rest) =>
      "[" +:+ dumps x +:+
      (fix items (l : list json) : string :=
         match l with
         | [] => ""
         | y :: l' => ", " +:+ dumps y +:+ items l'
         end) rest +:+ "]"
  | JObj [] => "{}"
  | JObj ((k, x) :: rest) =>
      "{" +:+ dumps_str k +:+ ": " +:+ dumps x +:+
      (fix members (l : list (string * json)) : string :=
         match l with
         | [] => ""
         | (k', y) :: l' =>
             ", " +:+ dumps_str k' +:+ ": " +:+ dumps y +:+ members l'
         end) rest +:+ "}"
  end.

(** *** The AnalysisResult schema (specification, section 3)
    [{ score: integer 0-100, summary: string, feedback: { verdict:
    string, pursueSkills: array of string, nextSteps: string } }].
    Members beyond the listed ones are allowed. *)

Definition is_str (v : json) : bool :=
  match v with JStr _ => true | _ => false end.

Definition is_score (v : json) : bool :=
  match v with JInt z => ((0 <=? z) && (z <=? 100))%Z | _ => false end.

Definition is_str_array (v : json) : bool :=
  match v with JArr items => forallb is_str items | _ => false end.

Definition is_feedback (v : json) : bool :=
  match v with
  | JObj f =>
      match get "verdict" f, get "pursueSkills" f, get "nextSteps" f with
      | Some verdict, Some skills, Some steps =>
          is_str verdict && is_str_array skills && is_str steps
      | _, _, _ => false
      end
  | _ => false
  end.

Definition conforms (v : json) : bool :=
  match v with
  | JObj o =>
      match get "score" o, get "summary" o, get "feedback" o with
      | Some score, Some summary, Some feedback =>
          is_score score && is_str summary && is_feedback feedback
      | _, _, _ => false
      end
  | _ => false
  end.

End Json.

(* ===================================================================== *)
(** ** A reference JSON decoder

    The decoder [json.loads] is a parameter of the development.  This
    module is the instance used in the examples: it follows CPython's
    [json.decoder] ([scan_once], [JSONObject], [JSONArray], [scanstring]
    and [JSONDecodeError]) on text whose characters are below 256.  A
    [\uXXXX] escape of a larger code point has no counterpart in the
    model of [str] and is refused. *)
(* ===================================================================== *)

Module JsonDecoder.
Import Json.
Local Open Scope list_scope.

(** [JSONDecodeError(msg, doc, pos)] before formatting. *)
Record decode_error := DecodeError { err_msg : string; err_pos : nat }.

Definition scan (A : Type) := (decode_error + A * list ascii * nat)%type.

Definition is_ws (c : ascii) : bool :=
  let n := nat_of_ascii c in
  Nat.eqb n 32 || Nat.eqb n 9 || Nat.eqb n 10 || Nat.eqb n 13.

Definition is_digit (c : ascii) : bool :=
  let n := nat_of_ascii c in Nat.leb 48 n && Nat.leb n 57.

Definition is_char (n : nat) (c : ascii) : bool := Nat.eqb (nat_of_ascii c) n.

(** [WHITESPACE.match(s, idx).end()] *)
Fixpoint skip_ws (s : list ascii) (idx : nat) : list ascii * nat :=
  match s with
  | c :: rest => if is_ws c then skip_ws rest (S idx) else (s, idx)
  | [] => (s, idx)
  end.

(** [s[idx:idx+len(lit)] == lit]; the text after the literal. *)
Fixpoint strip_prefix (lit s : list ascii) : option (list ascii) :=
  match lit, s with
  | [], _ => Some s
  | a :: lit', b :: s' => if Ascii.eqb a b then strip_prefix lit' s' else None
  | _ :: _, [] => None
  end.

Fixpoint take_digits (s : list ascii) : list ascii * list ascii :=
  match s with
  | c :: rest =>
      if is_digit c
      then let '(ds, r) := take_digits rest in (c :: ds, r)
      else ([], s)
  | [] => ([], s)
  end.

Definition digits_value (ds : list ascii) : Z :=
  fold_left (fun acc c => (10 * acc + Z.of_nat (nat_of_ascii c - 48))%Z) ds 0%Z.

Definition hex_value (c : ascii) : option nat :=
  let n := nat_of_ascii c in
  if Nat.leb 48 n && Nat.leb n 57 then Some (n - 48)
  else if Nat.leb 97 n && Nat.leb n 102 then Some (n - 87)
  else if Nat.leb 65 n && Nat.leb n 70 then Some (n - 55)
  else None.

(** [BACKSLASH[esc]] *)
Definition backslash (esc : ascii) : option ascii :=
  let n := nat_of_ascii esc in
  if Nat.eqb n 34 then Some esc
  else if Nat.eqb n 92 then Some esc
  else if Nat.eqb n 47 then Some esc
  else if Nat.eqb n 98 then Some (ascii_of_nat 8)
  else if Nat.eqb n 102 then Some (ascii_of_nat 12)
  else if Nat.eqb n 110 then Some (ascii_of_nat 10)
  else if Nat.eqb n 114 then Some (ascii_of_nat 13)
  else if Nat.eqb n 116 then Some (ascii_of_nat 9)
  else None.

(** [scanstring(s, end)] in strict mode; [s] starts after the opening
    quote, which is at [begin]. *)
Fixpoint scanstring (begin : nat) (acc : list ascii) (s : list ascii)
    (idx : nat) : scan string :=
  match s with
  | [] => inl (DecodeError "Unterminated string starting at" begin)
  | c :: rest =>
      if is_char 34 c then inr (string_of_list_ascii (rev acc), rest, S idx)
      else if is_char 92 c then
        match rest with
        | [] => inl (DecodeError "Unterminated string starting at" begin)
        | esc :: rest' =>
            if is_char 117 esc then
              match rest' with
              | h1 :: h2 :: h3 :: h4 :: rest'' =>
                  match hex_value h1, hex_value h2, hex_value h3, hex_value h4 with
                  | Some 0, Some 0, Some a, Some b =>
                      scanstring begin (ascii_of_nat (16 * a + b) :: acc)
                        rest'' (idx + 6)
                  | _, _, _, _ =>
                      inl (DecodeError "Invalid \uXXXX escape" (S idx))
                  end
              | _ => inl (DecodeError "Invalid \uXXXX escape" (S idx))
              end
            else
              match backslash esc with
              | Some ch => scanstring begin (ch :: acc) rest' (idx + 2)
              | None => inl (DecodeError "Invalid \escape" idx)
              end
        end
      else if Nat.ltb (nat_of_ascii c) 32
      then inl (DecodeError "Invalid control character at" idx)
      else scanstring begin (c :: acc) rest (S idx)
  end.

(** [NUMBER_RE.match(s, idx)]: an optional minus sign and either a
    single 0 or a digit string that does not start with 0; then, if
    present, a dot and digits; then, if present, an exponent (e or E,
    an optional sign, digits). *)
Definition match_integer (s : list ascii) : option (list ascii * list ascii) :=
  let '(sign, s1) :=
    match s with
    | c :: r => if is_char 45 c then ([c], r) else ([], s)
    | [] => ([], s)
    end in
  match s1 with
  | c :: r =>
      if is_char 48 c then Some (sign ++ [c], r)
      else if is_digit c
      then let '(ds, r') := take_digits s1 in Some (sign ++ ds, r')
      else None
  | [] => None
  end.

Definition match_frac (s : list ascii) : list ascii * list ascii :=
  match s with
  | dot :: r =>
      if is_char 46 dot then
        match take_digits r with
        | ([], _) => ([], s)
        | (ds, r') => (dot :: ds, r')
        end
      else ([], s)
  | [] => ([], s)
  end.

Definition match_exp (s : list ascii) : list ascii * list ascii :=
  match s with
  | e :: r =>
      if is_char 101 e || is_char 69 e then
        let '(sign, r1) :=
          match r with
          | c :: r' => if is_char 45 c || is_char 43 c then ([c], r') else ([], r)
          | [] => ([], r)
          end in
        match take_digits r1 with
        | ([], _) => ([], s)
        | (ds, r') => (e :: sign ++ ds, r')
        end
      else ([], s)
  | [] => ([], s)
  end.

Definition match_number (s : list ascii) (idx : nat) : option (json * list ascii * nat) :=
  match match_integer s with
  | None => None
  | Some (integer, r1) =>
      let '(frac, r2) := match_frac r1 in
      let '(exp, r3) := match_exp r2 in
      let lexeme := integer ++ frac ++ exp in
      let value :=
        match frac, exp with
        | [], [] =>
            match integer with
            | c :: ds => if is_char 45 c then JInt (- digits_value ds)
                         else JInt (digits_value integer)
            | [] => JInt 0
            end
        | _, _ => JFloat (string_of_list_ascii lexeme)
        end in
      Some (value, r3, idx + length lexeme)
  end.

Definition literal (text : string) (v : json) (s : list ascii) (idx : nat)
  : option (json * list ascii * nat) :=
  match strip_prefix (list_ascii_of_string text) s with
  | Some rest => Some (v, rest, idx + String.length text)
  | None => None
  end.

Definition expecting_value {A} (idx : nat) : scan A :=
  inl (DecodeError "Expecting value" idx).

(** [scan_once], [JSONObject] and [JSONArray]; [fuel] bounds the depth
    of the calls (twice the length of the text is enough).  A
    [StopIteration(idx)] of [scan_once] is always turned by its caller
    into [JSONDecodeError("Expecting value", s, idx)], which is what is
    returned here. *)
Fixpoint scan_once (fuel : nat) (s : list ascii) (idx : nat) : scan json :=
  match fuel with
  | O => inl (DecodeError "maximum recursion depth exceeded" idx)
  | S fuel' =>
      match s with
      | [] => expecting_value idx
      | c :: rest =>
          if is_char 34 c then
            match scanstring idx [] rest (S idx) with
            | inl e => inl e
            | inr (str, r, i) => inr (JStr str, r, i)
            end
          else if is_char 123 c then
            (* JSONObject *)
            let '(s1, i1) := skip_ws rest (S idx) in
            match s1 with
            | c1 :: r1 =>
                if is_char 125 c1 then inr (JObj [], r1, S i1)
                else if is_char 34 c1 then
                  match object_loop fuel' [] r1 (S i1) with
                  | inl e => inl e
                  | inr (pairs, r, i) => inr (JObj (dict pairs), r, i)
                  end
                else inl (DecodeError
                  "Expecting property name enclosed in double quotes" i1)
            | [] => inl (DecodeError
                  "Expecting property name enclosed in double quotes" i1)
            end
          else if is_char 91 c then
            (* JSONArray *)
            let '(s1, i1) := skip_ws rest (S idx) in
            match s1 with
            | c1 :: r1 =>
                if is_char 93 c1 then inr (JArr [], r1, S i1)
                else
                  match array_loop fuel' [] s1 i1 with
                  | inl e => inl e
                  | inr (items, r, i) => inr (JArr items, r, i)
                  end
            | [] => expecting_value i1
            end
          else
            match literal "null" JNull s idx with
            | Some r => inr r
            | None =>
            match literal "true" (JBool true) s idx with
            | Some r => inr r
            | None =>
            match literal "false" (JBool false) s idx with
            | Some r => inr r
            | None =>
            match match_number s idx with
            | Some r => inr r
            | None =>
            match literal "NaN" (JFloat "NaN") s idx with
            | Some r => inr r
            | None =>
            match literal "Infinity" (JFloat "Infinity") s idx with
            | Some r => inr r
            | None =>
            match literal "-Infinity" (JFloat "-Infinity") s idx with
            | Some r => inr r
            | None => expecting_value idx
            end end end end end end end
      end
  end

(** The loop of [JSONObject]; [s] starts after the opening quote of a
    key. *)
with object_loop (fuel : nat) (pairs : list (string * json))
    (s : list ascii) (idx : nat) : scan (list (string * json)) :=
  match fuel with
  | O => inl (DecodeError "maximum recursion depth exceeded" idx)
  | S fuel' =>
      match scanstring (idx - 1) [] s idx with
      | inl e => inl e
      | inr (key, s1, i1) =>
          let '(s2, i2) := skip_ws s1 i1 in
          match s2 with
          | colon :: s3 =>
              if is_char 58 colon then
                let '(s4, i4) := skip_ws s3 (S i2) in
                match scan_once fuel' s4 i4 with
                | inl e => inl e
                | inr (value, s5, i5) =>
                    let pairs' := pairs ++ [(key, value)] in
                    let '(s6, i6) := skip_ws s5 i5 in
                    match s6 with
                    | c :: s7 =>
                        if is_char 125 c then inr (pairs', s7, S i6)
                        else if is_char 44 c then
                          let '(s8, i8) := skip_ws s7 (S i6) in
                          match s8 with
                          | q :: s9 =>
                              if is_char 34 q
                              then object_loop fuel' pairs' s9 (S i8)
                              else inl (DecodeError
                                "Expecting property name enclosed in double quotes" i8)
                          | [] => inl (DecodeError
                                "Expecting property name enclosed in double quotes" i8)
                          end
                        else inl (DecodeError "Expecting ',' delimiter" i6)
                    | [] => inl (DecodeError "Expecting ',' delimiter" i6)
                    end
                end
              else inl (DecodeError "Expecting ':' delimiter" i2)
          | [] => inl (DecodeError "Expecting ':' delimiter" i2)
          end
      end
  end

(** The loop of [JSONArray]; [s] starts at an item. *)
with array_loop (fuel : nat) (items : list json) (s : list ascii)
    (idx : nat) : scan (list json) :=
  match fuel with
  | O => inl (DecodeError "maximum recursion depth exceeded" idx)
  | S fuel' =>
      match scan_once fuel' s idx with
      | inl e => inl e
      | inr (value, s1, i1) =>
          let items' := items ++ [value] in
          let '(s2, i2) := skip_ws s1 i1 in
          match s2 with
          | c :: s3 =>
              if is_char 93 c then inr (items', s3, S i2)
              else if is_char 44 c then
                let '(s4, i4) := skip_ws s3 (S i2) in
                array_loop fuel' items' s4 i4
              else inl (DecodeError "Expecting ',' delimiter" i2)
          | [] => inl (DecodeError "Expecting ',' delimiter" i2)
          end
      end
  end.

(** [str(JSONDecodeError(msg, doc, pos))]:
    ["%s: line %d column %d (char %d)"]. *)
Fixpoint line_col (doc : list ascii) (pos line col : nat) : nat * nat :=
  match pos, doc with
  | S pos', c :: rest =>
      if is_char 10 c then line_col rest pos' (S line) 1
      else line_col rest pos' line (S col)
  | _, _ => (line, col)
  end.

Definition format_error (doc : list ascii) (e : decode_error) : string :=
  let '(line, col) := line_col doc (err_pos e) 1 1 in
  err_msg e +:+ ": line " +:+ pretty line +:+ " column " +:+ pretty col
    +:+ " (char " +:+ pretty (err_pos e) +:+ ")".

(** [json.loads(s)] for a [str]. *)
Definition loads (text : string) : Py.result json :=
  let doc := list_ascii_of_string text in
  let '(s0, i0) := skip_ws doc 0 in
  match scan_once (2 * length doc + 2) s0 i0 with
  | inl e => inl (format_error doc e)
  | inr (v, s1, i1) =>
      match skip_ws s1 i1 with
      | ([], _) => inr v
      | (_ :: _, i2) => inl (format_error doc (DecodeError "Extra data" i2))
      end
  end.

End JsonDecoder.

(* ===================================================================== *)
(** ** The file system

    A POSIX file tree without links and permissions: a set of
    directories and a map from locations to file contents.  A location
    is the list of names from the root.  Path resolution follows
    path_resolution(7): every component is looked up in an existing
    directory.  Left out: the limits on the length of a name and of a
    path (a real [open] raises [ENAMETOOLONG] beyond them), and the
    exact text of a message where [repr] escapes the path or where the
    kernel prefers another error. *)
(* ===================================================================== *)

Module Fs.
Local Open Scope list_scope.

Definition bytes := list Byte.byte.
Definition loc := list string.

Record fs := Build {
  cwd : loc;
  dirs : gset loc;
  files : gmap loc bytes
}.

Definition with_files (f : fs) (m : gmap loc bytes) : fs :=
  {| cwd := cwd f; dirs := dirs f; files := m |}.

Definition with_dirs (f : fs) (d : gset loc) : fs :=
  {| cwd := cwd f; dirs := d; files := files f |}.

(** [path.split("/")] *)
Fixpoint split_slash (path : string) : list string :=
  match path with
  | EmptyString => [""]
  | String c rest =>
      let parts := split_slash rest in
      if Ascii.eqb c "/" then "" :: parts
      else match parts with
           | p :: ps => String c p :: ps
           | [] => [String c ""]
           end
  end.

Definition is_dir (f : fs) (l : loc) : bool := bool_decide (l ∈ dirs f).
Definition is_file (f : fs) (l : loc) : bool :=
  match files f !! l with Some _ => true | None => false end.

(** [repr(path)] for a path of printable characters without quotes
    and backslashes. *)
Definition repr (path : string) : string := "'" +:+ path +:+ "'".

Definition FileNotFoundError (path : string) : Py.exn :=
  "[Errno 2] No such file or directory: " +:+ repr path.
Definition NotADirectoryError (path : string) : Py.exn :=
  "[Errno 20] Not a directory: " +:+ repr path.
Definition IsADirectoryError (path : string) : Py.exn :=
  "[Errno 21] Is a directory: " +:+ repr path.
Definition FileExistsError (path : string) : Py.exn :=
  "[Errno 17] File exists: " +:+ repr path.

Definition parent (l : loc) : loc := removelast l.

(** Looks the components up one after the other, starting in [cur]. *)
Fixpoint walk (f : fs) (path : string) (cur : loc) (comps : list string)
  : Py.result loc :=
  match comps with
  | [] => inr cur
  | c :: rest =>
      if is_dir f cur then
        if String.eqb c "" || String.eqb c "." then walk f path cur rest
        else if String.eqb c ".." then walk f path (parent cur) rest
        else walk f path (cur ++ [c]) rest
      else if is_file f cur then inl (NotADirectoryError path)
      else inl (FileNotFoundError path)
  end.

Fixpoint has_nul (s : string) : bool :=
  match s with
  | EmptyString => false
  | String c rest => Nat.eqb (nat_of_ascii c) 0 || has_nul rest
  end.

(** The location a path names; the last component need not exist. *)
Definition resolve (f : fs) (path : string) : Py.result loc :=
  if has_nul path then inl "embedded null byte"
  else if String.eqb path "" then inl (FileNotFoundError path)
  else walk f path (if String.prefix "/" path then [] else cwd f)
         (split_slash path).

(** [open(path, "wb")], writing [data] and closing. *)
Definition write (path : string) (data : bytes) (f : fs) : Py.result fs :=
  match resolve f path with
  | inl e => inl e
  | inr l =>
      if is_dir f l then inl (IsADirectoryError path)
      else inr (with_files f (<[l := data]> (files f)))
  end.

(** [open(path, "rb")] and reading everything. *)
Definition read (path : string) (f : fs) : Py.result bytes :=
  match resolve f path with
  | inl e => inl e
  | inr l =>
      if is_dir f l then inl (IsADirectoryError path)
      else match files f !! l with
           | Some data => inr data
           | None => inl (FileNotFoundError path)
           end
  end.

(** [os.path.exists(path)] *)
Definition exists_ (path : string) (f : fs) : bool :=
  match resolve f path with
  | inl _ => false
  | inr l => is_dir f l || is_file f l
  end.

(** [os.remove(path)] *)
Definition remove (path : string) (f : fs) : Py.result fs :=
  match resolve f path with
  | inl e => inl e
  | inr l =>
      if is_dir f l then inl (IsADirectoryError path)
      else if is_file f l then inr (with_files f (delete l (files f)))
      else inl (FileNotFoundError path)
  end.

(** [os.makedirs(path, exist_ok=True)] for a path of plain names. *)
Fixpoint makedirs_from (path : string) (cur : loc) (comps : list string)
    (f : fs) : Py.result fs :=
  match comps with
  | [] => inr f
  | c :: rest =>
      let l := cur ++ [c] in
      if is_file f l then inl (FileExistsError path)
      else makedirs_from path l rest (with_dirs f ({[ l ]} ∪ dirs f))
  end.

Definition makedirs (path : string) (f : fs) : Py.result fs :=
  makedirs_from path (cwd f) (split_slash path) f.

(** [posixpath.join(a, b)] *)
Fixpoint ends_with_slash (s : string) : bool :=
  match s with
  | EmptyString => false
  | String c EmptyString => Ascii.eqb c "/"
  | String _ rest => ends_with_slash rest
  end.

Definition join (a b : string) : string :=
  if String.prefix "/" b then b
  else if String.eqb a "" || ends_with_slash a then a +:+ b
  else a +:+ "/" +:+ b.


End Fs.

(* ===================================================================== *)
(** ** The process state and the monad of the program *)
(* ===================================================================== *)

Import Json.

(** One call [client.models.generate_content(model=.., contents=..,
    config=..)]; [config] is the value of ["response_mime_type"] when a
    configuration is passed. *)
Record gen_call := GenCall {
  model : string;
  contents : string;
  config : option string
}.

(** The remote generation service behind an initialised client: given
    the calls made so far and the present call, it raises or answers
    with [response.text], which is a [str] or [None].  A dependence on
    the earlier calls stands for whatever state the service keeps. *)
Definition backend := list gen_call -> gen_call -> Py.result (option string).

(** What a run can read and change: the file system, what was printed,
    and the calls sent to the generation service. *)
Record world := World {
  fs : Fs.fs;
  stdout : list string;
  net : list gen_call
}.

(** A page of [reader.pages]: reaching it and calling [extract_text()]
    raises or gives a [str] or [None]. *)
Definition page := Py.result (option string).

(** The libraries and the global [client] of the module. *)
Record Env := MkEnv {
  (** [PyPDF2.PdfReader(file)] and its [pages], from the bytes of the
      file: the constructor raises, or the pages follow in order;
      iteration stops at the first page that raises. *)
  PdfReader : Fs.bytes -> Py.result (list page);
  (** [json.loads] on a [str]. *)
  loads : string -> Py.result json;
  (** The global [client]: [None] when [genai.Client] raised at start. *)
  client : option backend
}.

(** A computation that cannot raise, and one that can. *)
Definition io (A : Type) := world -> A * world.
Definition M (A : Type) := io (Py.result A).

Definition ret {A} (a : A) : M A := fun w => (inr a, w).
Definition raise {A} (e : Py.exn) : M A := fun w => (inl e, w).
Definition bind {A B} (c : M A) (k : A -> M B) : M B :=
  fun w =>
    match c w with
    | (inr a, w') => k a w'
    | (inl e, w') => (inl e, w')
    end.

Declare Scope py_scope.
Delimit Scope py_scope with py.
Notation "x <- c ;; k" := (bind c (fun x => k))
  (at level 100, c at next level, right associativity) : py_scope.
Notation "c ;; k" := (bind c (fun _ => k))
  (at level 100, right associativity) : py_scope.

(** [print(line)] *)
Definition print (line : string) (w : world) : world :=
  {| fs := fs w; stdout := stdout w ++ [line]; net := net w |}.

Definition with_fs (w : world) (f : Fs.fs) : world :=
  {| fs := f; stdout := stdout w; net := net w |}.

(** A file system operation that may raise, as a computation. *)
Definition fs_update (op : Fs.fs -> Py.result Fs.fs) : M unit :=
  fun w =>
    match op (fs w) with
    | inr f => (inr tt, with_fs w f)
    | inl e => (inl e, w)
    end.

(** A call that may raise and touches no state. *)
Definition lift {A} (r : Py.result A) : M A := fun w => (r, w).

(** The world after a call went out to the generation service. *)
Definition sent (call : gen_call) (w : world) : world :=
  {| fs := fs w; stdout := stdout w; net := net w ++ [call] |}.

(** [c.models.generate_content(...)] followed by [.text]: one call goes
    out, whether it raises or not. *)
Definition generate_content (c : backend) (call : gen_call) : M (option string) :=
  fun w => (c (net w) call, sent call w).

(* ===================================================================== *)
(** ** The program *)
(* ===================================================================== *)

Definition UPLOAD_FOLDER : string := "uploads".

(** The start of the module: the key is read from the environment, an
    absent or empty key becomes [""], and the client is built; a
    constructor that raises leaves [client = None]. *)
Definition init_client (GEMINI_API_KEY : option string)
    (Client : string -> Py.result backend) : option backend * list string :=
  let apiKey := if Py.truthy GEMINI_API_KEY then Py.str GEMINI_API_KEY else "" in
  match Client apiKey with
  | inr c => (Some c, [])
  | inl e =>
      (None,
       ["CRITICAL ERROR: Failed to initialize Gemini Client. Check your API Key. Details: "
          +:+ e])
  end.

Section Program.

Variable E : Env.

Local Open Scope py_scope.

(** The [for] loop of [extract_text_from_pdf] on the local variable
    [text]: the text so far and the exception that ended the loop, if
    one did. *)
Fixpoint read_pages (pages : list page) (text : string)
  : string * option Py.exn :=
  match pages with
  | [] => (text, None)
  | inr extracted :: rest => read_pages rest (text +:+ Py.or_empty extracted)
  | inl e :: _ => (text, Some e)
  end.

(** [extract_text_from_pdf(pdf_path)]: the body of the [try] changes
    only [text]; the handler prints and the function returns [text]
    in both cases. *)
Definition extract_text_from_pdf (pdf_path : string) : M string :=
  fun w =>
    let text := "" in
    let '(text, raised) :=
      match Fs.read pdf_path (fs w) with
      | inl e => (text, Some e)
      | inr data =>
          match PdfReader E data with
          | inl e => (text, Some e)
          | inr pages => read_pages pages text
          end
      end in
    match raised with
    | Some e => (inr text, print ("PDF Error: " +:+ e) w)
    | None => (inr text, w)
    end.

Definition NOT_INITIALIZED : string := "Error: AI Client not initialized.".
Definition MODEL : string := "gemini-2.5-flash".

(** [parse_resume(resume_text)] *)
Definition parse_resume (resume_text : string) : M (option string) :=
  let prompt :=
    "Extract skills, Experience, and Education from this resume in bullet points:"
      +:+ Py.LF +:+ resume_text in
  match client E with
  | None => ret (Some NOT_INITIALIZED)
  | Some c =>
      generate_content c {| model := MODEL; contents := prompt; config := None |}
  end.

(** The call [parse_resume] sends when there is a client. *)
Definition resume_call (resume_text : string) : gen_call :=
  {| model := "gemini-2.5-flash";
     contents :=
       "Extract skills, Experience, and Education from this resume in bullet points:"
         +:+ Py.LF +:+ resume_text;
     config := None |}.

(** [parse_job_description(jd_text)] *)
Definition parse_job_description (jd_text : string) : M (option string) :=
  let prompt :=
    "Extract Required Skills and Qualifications from this Job Description:"
      +:+ Py.LF +:+ jd_text in
  match client E with
  | None => ret (Some NOT_INITIALIZED)
  | Some c =>
      generate_content c {| model := MODEL; contents := prompt; config := None |}
  end.

(** The call [parse_job_description] sends when there is a client. *)
Definition jd_call (jd_text : string) : gen_call :=
  {| model := "gemini-2.5-flash";
     contents :=
       "Extract Required Skills and Qualifications from this Job Description:"
         +:+ Py.LF +:+ jd_text;
     config := None |}.

Definition quoted (s : string) : string := Py.DQ +:+ s +:+ Py.DQ.

Definition unlines (lines : list string) : string :=
  match lines with
  | [] => ""
  | l :: rest => fold_left (fun acc x => acc +:+ Py.LF +:+ x) rest l
  end.

(** The prompt of [get_final_json_analysis], line by line. *)
Definition final_prompt (parsed_resume parsed_jd : option string) : string :=
  unlines [
    "";
    "    Based on the parsed Resume and Job Description below, generate a final ATS evaluation.";
    "    ";
    "    Resume Info: " +:+ Py.str parsed_resume;
    "    JD Info: " +:+ Py.str parsed_jd;
    "";
    "    Return ONLY a JSON object with this structure:";
    "    {";
    "      " +:+ quoted "score" +:+ ": (integer 0-100),";
    "      " +:+ quoted "summary" +:+ ": "
      +:+ quoted "Short 2-sentence match summary" +:+ ",";
    "      " +:+ quoted "feedback" +:+ ": {";
    "        " +:+ quoted "verdict" +:+ ": "
      +:+ quoted "A professional paragraph assessing the candidate's fit" +:+ ",";
    "        " +:+ quoted "pursueSkills" +:+ ": [" +:+ quoted "Skill 1" +:+ ", "
      +:+ quoted "Skill 2" +:+ ", " +:+ quoted "Skill 3" +:+ "],";
    "        " +:+ quoted "nextSteps" +:+ ": " +:+ quoted "Specific advice";
    "      }";
    "    }";
    "    "
  ].

(** The mock result returned when there is no client. *)
Definition mock_result : json :=
  JObj [
    ("score", JInt 0);
    ("summary", JStr "AI Error: Client not connected.");
    ("feedback", JObj [
       ("verdict", JStr "Could not analyze due to server configuration error.");
       ("pursueSkills", JArr []);
       ("nextSteps", JStr "Check server logs.")
     ])
  ].

(** [get_final_json_analysis(parsed_resume, parsed_jd)] *)
Definition get_final_json_analysis (parsed_resume parsed_jd : option string)
  : M (option string) :=
  let prompt := final_prompt parsed_resume parsed_jd in
  match client E with
  | None => ret (Some (dumps mock_result))
  | Some c =>
      generate_content c
        {| model := MODEL; contents := prompt;
           config := Some "application/json" |}
  end.

(** The call [get_final_json_analysis] sends when there is a client. *)
Definition final_call (parsed_resume parsed_jd : option string) : gen_call :=
  {| model := "gemini-2.5-flash";
     contents := final_prompt parsed_resume parsed_jd;
     config := Some "application/json" |}.

(** [json.loads(x)] for the [str] or [None] the last stage returned. *)
Definition json_loads (x : option string) : Py.result json :=
  match x with
  | Some s => loads E s
  | None => inl "the JSON object must be str, bytes or bytearray, not NoneType"
  end.

(** The uploaded file [request.files["resume"]]. *)
Record upload := Upload {
  filename : string;
  stream : Fs.bytes
}.

(** The parts of the request the handler reads. *)
Record request := Request {
  files_resume : option upload;
  form_job_description : option string
}.

(** A response: status code and JSON body. *)
Record response := Response {
  status : Z;
  body : json
}.

Definition jsonify_error (msg : string) : json := JObj [("error", JStr msg)].

(** [os.path.join(app.config["UPLOAD_FOLDER"], f"temp_{filename}")] *)
Definition pdf_path_of (resume_file : upload) : string :=
  let filename := "temp_" +:+ filename resume_file in
  Fs.join UPLOAD_FOLDER filename.

(** [resume_file.save(pdf_path)]: the stream is written to a file
    opened with [open(pdf_path, "wb")]. *)
Definition save (resume_file : upload) (pdf_path : string) : M unit :=
  fs_update (Fs.write pdf_path (stream resume_file)).

(** [if os.path.exists(pdf_path): os.remove(pdf_path)] *)
Definition cleanup (pdf_path : string) : M unit :=
  fun w =>
    if Fs.exists_ pdf_path (fs w)
    then fs_update (Fs.remove pdf_path) w
    else ret tt w.

(** The body of the [try] statement of [analyze]. *)
Definition analyze_try (resume_file : upload) (jd_text : string) : M json :=
  let pdf_path := pdf_path_of resume_file in
  save resume_file pdf_path ;;
  resume_text <- extract_text_from_pdf pdf_path ;;

  parsed_resume <- parse_resume resume_text ;;
  parsed_jd <- parse_job_description jd_text ;;

  final_analysis_raw <- get_final_json_analysis parsed_resume parsed_jd ;;
  final_data <- lift (json_loads final_analysis_raw) ;;

  cleanup pdf_path ;;

  ret final_data.

(** The line printed when a request with a resume file arrives. *)
Definition debug_line (resume_file : upload) (jd_text : option string) : string :=
  "DEBUG: Received analysis request. File: "
    +:+ filename resume_file +:+ ", JD Length: "
    +:+ Py.str_nat (if Py.truthy jd_text then Py.len (Py.str jd_text) else 0).

(** [analyze()], the handler of [POST /analyze]. *)
Definition analyze (req : request) : io response :=
  fun w =>
    match files_resume req with
    | None => (Response 400 (jsonify_error "Resume PDF is required"), w)
    | Some resume_file =>
        let jd_text := form_job_description req in
        let w := print (debug_line resume_file jd_text) w in
        if negb (Py.truthy jd_text)
        then (Response 400 (jsonify_error "Job description is required"), w)
        else
          match analyze_try resume_file (Py.str jd_text) w with
          | (inr final_data, w') => (Response 200 final_data, w')
          | (inl e, w') =>
              (Response 500 (jsonify_error ("Analysis failed: " +:+ e)),
               print ("Internal Error: " +:+ e) w')
          end
    end.

End Program.

Arguments Upload _ _ : clear implicits.
Arguments Request _ _ : clear implicits.

(* ===================================================================== *)
(** ** Reference instances for the examples *)
(* ===================================================================== *)

Module Ref.

(** A machine on which the application runs in [/srv/ats]. *)
Definition base_fs : Fs.fs :=
  {| Fs.cwd := ["srv"; "ats"];
     Fs.dirs := {[ []; ["srv"]; ["srv"; "ats"] ]};
     Fs.files := ∅ |}.

(** The file system after [os.makedirs(UPLOAD_FOLDER, exist_ok=True)]. *)
Definition fresh_fs : Fs.fs :=
  match Fs.makedirs UPLOAD_FOLDER base_fs with
  | inr f => f
  | inl _ => base_fs
  end.

(** The same machine with a directory [uploads/temp_x]. *)
Definition fs_with_subdir : Fs.fs :=
  Fs.with_dirs fresh_fs ({[ ["srv"; "ats"; "uploads"; "temp_x"] ]} ∪ Fs.dirs fresh_fs).

Definition w0 : world := {| fs := fresh_fs; stdout := []; net := [] |}.
Definition w_subdir : world := {| fs := fs_with_subdir; stdout := []; net := [] |}.

(** Uploaded documents. *)
Definition pdf_bytes : Fs.bytes := list_byte_of_string "%PDF-1.7 resume".
Definition cv : upload := Upload "cv.pdf" pdf_bytes.
Definition cv_in_subfolder : upload := Upload "a/b.pdf" pdf_bytes.
Definition cv_under_file : upload := Upload "cv.pdf/x" pdf_bytes.

Definition jd : string := "Python developer with SQL".

(** Behaviours of PyPDF2 on the uploaded document. *)
Definition one_page : Fs.bytes -> Py.result (list page) :=
  fun _ => inr [inr (Some "Jane Doe. Python, SQL.")].
Definition three_pages : Fs.bytes -> Py.result (list page) :=
  fun _ => inr [inr (Some "Jane Doe. "); inr None; inr (Some "Python, SQL.")].
Definition not_a_pdf : Fs.bytes -> Py.result (list page) :=
  fun _ => inl "EOF marker not found".
Definition second_page_fails : Fs.bytes -> Py.result (list page) :=
  fun _ => inr [inr (Some "Jane Doe. "); inl "unsupported filter"; inr (Some "Python")].
Definition image_page_then_failure : Fs.bytes -> Py.result (list page) :=
  fun _ => inr [inr None; inl "unsupported filter"].

(** Deterministic stub backends: the answer depends on the call only. *)
Definition good_result : json :=
  JObj [
    ("score", JInt 85);
    ("summary", JStr "Strong match. Good Python background.");
    ("feedback", JObj [
       ("verdict", JStr "The candidate fits the role.");
       ("pursueSkills", JArr [JStr "Docker"; JStr "Kubernetes"; JStr "AWS"]);
       ("nextSteps", JStr "Add cloud projects.")
     ])
  ].

Definition stub (json_answer : string) : backend :=
  fun _ call =>
    match config call with
    | Some _ => inr (Some json_answer)
    | None => inr (Some "- Python")
    end.

Definition stub_good : backend := stub (dumps good_result).
Definition stub_score_150 : backend := stub ("{" +:+ Py.DQ +:+ "score" +:+ Py.DQ +:+ ": 150}").
Definition stub_prose : backend := stub "Sure! Here is the JSON you asked for.".
Definition stub_down : backend := fun _ _ => inl "503 UNAVAILABLE".

(** A backend whose synthesis answer carries no text. *)
Definition stub_no_text : backend :=
  fun _ call =>
    match config call with
    | Some _ => inr None
    | None => inr (Some "- Python")
    end.

(** A client constructor that refuses the empty key. *)
Definition genai_Client (api_key : string) : Py.result backend :=
  if String.eqb api_key "" then inl "Missing key inputs argument!"
  else inr stub_good.

(** A backend whose answers change from call to call. *)
Definition counting_backend : backend :=
  fun history _ => inr (Some (pretty (length history))).

Definition env (reader : Fs.bytes -> Py.result (list page))
    (c : option backend) : Env :=
  {| PdfReader := reader; loads := JsonDecoder.loads; client := c |}.

Definition valid_request (u : upload) : request := Request (Some u) (Some jd).

(** The world once [cv] has been saved under its temporary path. *)
Definition w_cv_saved : world :=
  snd (fs_update (Fs.write "uploads/temp_cv.pdf" pdf_bytes) w0).

End Ref.

(* ===================================================================== *)
(** ** Vocabulary of the specification *)
(* ===================================================================== *)

(** The concatenation, in page order, of the text of each page, a page
    without text counting as the empty string. *)
Fixpoint concat_pages (texts : list (option string)) : string :=
  match texts with
  | [] => ""
  | t :: rest => Py.or_empty t +:+ concat_pages rest
  end.

(** A page whose extraction gives [t] without raising. *)
Definition page_ok (t : option string) : page := inr t.

(** The texts of the pages that are extracted: those before the first
    page that raises, all of them when none does. *)
Fixpoint pages_read (pages : list page) : list (option string) :=
  match pages with
  | inr t :: rest => t :: pages_read rest
  | _ => []
  end.

(** A backend is a deterministic stub when its answer depends on the
    call only and not on the calls before it. *)
Definition deterministic (E : Env) : Prop :=
  forall c, client E = Some c ->
  forall (h1 h2 : list gen_call) (call : gen_call), c h1 call = c h2 call.

(** The statements of the [try] body of [analyze] that follow the save. *)
Definition after_save (E : Env) (pdf_path jd_text : string) : M json :=
  (resume_text <- extract_text_from_pdf E pdf_path ;;
   parsed_resume <- parse_resume E resume_text ;;
   parsed_jd <- parse_job_description E jd_text ;;
   final_analysis_raw <- get_final_json_analysis E parsed_resume parsed_jd ;;
   final_data <- lift (json_loads E final_analysis_raw) ;;
   cleanup pdf_path ;;
   ret final_data)%py.

(** A stage leaves the files alone and sends at most one call. *)
Definition one_call_at_most {A} (stage : M A) : Prop :=
  forall w r w',
    stage w = (r, w') ->
    fs w' = fs w
    /\ exists calls, net w' = (net w ++ calls)%list /\ length calls <= 1.

(** A computation whose result and whose effect on the files depend on
    the files only, not on what was printed or sent before. *)
Definition files_only {A} (c : M A) : Prop :=
  forall w1 w2,
    fs w1 = fs w2 ->
    fst (c w1) = fst (c w2) /\ fs (snd (c w1)) = fs (snd (c w2)).

(** The file at [path] holds [data] and can be removed. *)
Definition saved_at (path : string) (data : Fs.bytes) (f : Fs.fs) : Prop :=
  Fs.read path f = inr data
  /\ Fs.exists_ path f = true
  /\ exists f', Fs.remove path f = inr f'.

(** Two file systems with the same directories; their files may differ. *)
Definition same_tree (f1 f2 : Fs.fs) : Prop :=
  Fs.cwd f1 = Fs.cwd f2 /\ Fs.dirs f1 = Fs.dirs f2.

(** Whether a file name contains a path separator. *)
Fixpoint has_slash (s : string) : bool :=
  match s with
  | EmptyString => false
  | String c rest => Ascii.eqb c "/" || has_slash rest
  end.

(** The location of the upload folder of a file system. *)
Definition uploads_of (f : Fs.fs) : Fs.loc := (Fs.cwd f ++ [UPLOAD_FOLDER])%list.

(** A request with a resume file and a non-empty job description. *)
Definition valid (req : request) : Prop :=
  is_Some (files_resume req) /\ Py.truthy (form_job_description req) = true.

(* ===================================================================== *)
(** ** Basic facts *)
(* ===================================================================== *)

Lemma append_cons (c : ascii) (s t : string) :
  String c s +:+ t = String c (s +:+ t).
Proof. reflexivity. Qed.

Lemma append_nil_r (s : string) : s +:+ "" = s.
Proof.
  induction s as [|c s IH]; [reflexivity | rewrite append_cons; f_equal; exact IH].
Qed.

Lemma append_assoc (a b c : string) : (a +:+ b) +:+ c = a +:+ (b +:+ c).
Proof.
  induction a as [|x a IH]; [reflexivity |].
  rewrite !append_cons. f_equal. exact IH.
Qed.

Lemma append_eq_nil (a b : string) : a +:+ b = "" -> a = "" /\ b = "".
Proof. destruct a; [auto | rewrite append_cons; discriminate]. Qed.

Lemma truthy_false (x : option string) :
  Py.truthy x = false <-> x = None \/ x = Some "".
Proof.
  destruct x as [[|c s]|]; simpl; split; intros H; auto;
    try discriminate; destruct H as [H|H]; discriminate.
Qed.

Lemma truthy_true (x : option string) :
  Py.truthy x = true -> exists s, x = Some s /\ s <> "" /\ Py.str x = s.
Proof.
  destruct x as [[|c s]|]; simpl; intros H; try discriminate.
  exists (String c s). repeat split. discriminate.
Qed.

(** The loop over the pages, when no page raises. *)
Lemma read_pages_all_ok (texts : list (option string)) (text : string) :
  read_pages (map page_ok texts) text = (text +:+ concat_pages texts, None).
Proof.
  revert text. induction texts as [|t texts IH]; intros text;
    cbn [read_pages map concat_pages page_ok].
  - now rewrite append_nil_r.
  - rewrite IH. now rewrite append_assoc.
Qed.

(** The loop over the pages, when a page raises after some were read. *)
Lemma read_pages_stops (read : list (option string)) (e : Py.exn)
    (rest : list page) (text : string) :
  read_pages (map page_ok read ++ inl e :: rest)%list text
  = (text +:+ concat_pages read, Some e).
Proof.
  revert text. induction read as [|t read IH]; intros text;
    cbn [read_pages map concat_pages page_ok app].
  - now rewrite append_nil_r.
  - rewrite IH. now rewrite append_assoc.
Qed.

(** The loop over the pages, in general. *)
Lemma read_pages_text (pages : list page) (text : string) :
  fst (read_pages pages text) = text +:+ concat_pages (pages_read pages).
Proof.
  revert text. induction pages as [|[e|t] pages IH]; intros text;
    cbn [read_pages pages_read concat_pages fst].
  - now rewrite append_nil_r.
  - now rewrite append_nil_r.
  - rewrite IH. now rewrite append_assoc.
Qed.

Lemma pages_read_all_ok (texts : list (option string)) :
  pages_read (map page_ok texts) = texts.
Proof.
  induction texts as [|t texts IH]; cbn [map pages_read page_ok];
    [reflexivity | now rewrite IH].
Qed.

Lemma concat_pages_nonempty (texts : list (option string)) :
  concat_pages texts <> "" <-> exists t, In t texts /\ Py.or_empty t <> "".
Proof.
  induction texts as [|t texts IH]; simpl.
  - split; [congruence | intros (t & [] & _)].
  - split.
    + intros H. destruct (string_dec (Py.or_empty t) "") as [Ht|Ht].
      * rewrite Ht in H. simpl in H. apply IH in H as (t' & Hin & Hne).
        exists t'. auto.
      * exists t. auto.
    + intros (t' & [<-|Hin] & Hne) Heq; apply append_eq_nil in Heq as [H1 H2].
      * contradiction.
      * apply (proj2 IH); eauto.
Qed.

(* ===================================================================== *)
(** ** The text extractor *)
(* ===================================================================== *)

(** C6.  For every document the extractor returns without raising and
    leaves the file system and the network alone.  The text it returns
    is the concatenation, in page order, of the texts of the pages it
    extracted, a page without text counting as the empty string; when
    no page raises these are all the pages and nothing is printed.
    When the file cannot be opened, or PyPDF2 cannot parse it, the
    result is the empty string and the failure is printed. *)
Theorem extract_text_from_pdf_contract (E : Env) (pdf_path : string) (w : world) :
  exists text w',
    extract_text_from_pdf E pdf_path w = (inr text, w')
    /\ fs w' = fs w /\ net w' = net w
    /\ (forall data pages,
          Fs.read pdf_path (fs w) = inr data ->
          PdfReader E data = inr pages ->
          text = concat_pages (pages_read pages))
    /\ (forall data texts,
          Fs.read pdf_path (fs w) = inr data ->
          PdfReader E data = inr (map page_ok texts) ->
          text = concat_pages texts /\ w' = w)
    /\ (forall e,
          Fs.read pdf_path (fs w) = inl e
          \/ (exists data,
                Fs.read pdf_path (fs w) = inr data /\ PdfReader E data = inl e) ->
          text = "" /\ w' = print ("PDF Error: " +:+ e) w).
Proof.
  unfold extract_text_from_pdf.
  destruct (Fs.read pdf_path (fs w)) as [e|data] eqn:Hread.
  - eexists _, _. split; [reflexivity |].
    split; [reflexivity |]. split; [reflexivity |].
    split; [intros d ps [=] |]. split; [intros d ts [=] |].
    intros e' [[= ->] | (d & [=] & _)]. split; reflexivity.
  - destruct (PdfReader E data) as [e|pages] eqn:Hpdf.
    + eexists _, _. split; [reflexivity |].
      split; [reflexivity |]. split; [reflexivity |].
      split; [intros d ps [= <-] H; rewrite Hpdf in H; discriminate |].
      split; [intros d ts [= <-] H; rewrite Hpdf in H; discriminate |].
      intros e' [[=] | (d & [= <-] & H)].
      rewrite Hpdf in H. injection H as <-. split; reflexivity.
    + pose proof (read_pages_text pages "") as Htext.
      destruct (read_pages pages "") as [text raised] eqn:Hloop.
      cbn [fst] in Htext. change ("" +:+ ?x) with x in Htext. subst text.
      destruct raised as [e|].
      * eexists _, _. split; [reflexivity |].
        split; [reflexivity |]. split; [reflexivity |].
        split.
        { intros d ps [= <-] H. rewrite Hpdf in H. now injection H as <-. }
        split.
        { intros d ts [= <-] H. rewrite Hpdf in H. injection H as ->.
          rewrite read_pages_all_ok in Hloop. discriminate. }
        intros e' [[=] | (d & [= <-] & H)]. rewrite Hpdf in H. discriminate.
      * eexists _, _. split; [reflexivity |].
        split; [reflexivity |]. split; [reflexivity |].
        split.
        { intros d ps [= <-] H. rewrite Hpdf in H. now injection H as <-. }
        split.
        { intros d ts [= <-] H. rewrite Hpdf in H. injection H as ->.
          rewrite pages_read_all_ok. split; reflexivity. }
        intros e' [[=] | (d & [= <-] & H)]. rewrite Hpdf in H. discriminate.
Qed.

Lemma extract_text_from_pdf_contract_witness :
  Fs.read "uploads/temp_cv.pdf" (fs Ref.w_cv_saved) = inr Ref.pdf_bytes
  /\ Ref.three_pages Ref.pdf_bytes
     = inr (map page_ok [Some "Jane Doe. "; None; Some "Python, SQL."])
  /\ extract_text_from_pdf (Ref.env Ref.three_pages None)
       "uploads/temp_cv.pdf" Ref.w_cv_saved
     = (inr "Jane Doe. Python, SQL.", Ref.w_cv_saved).
Proof.
  assert (Hread : Fs.read "uploads/temp_cv.pdf" (fs Ref.w_cv_saved)
                  = inr Ref.pdf_bytes) by (vm_compute; reflexivity).
  split; [exact Hread |]. split; [reflexivity |].
  destruct (extract_text_from_pdf_contract (Ref.env Ref.three_pages None)
              "uploads/temp_cv.pdf" Ref.w_cv_saved)
    as (text & w' & Heq & _ & _ & _ & Hall & _).
  destruct (Hall Ref.pdf_bytes [Some "Jane Doe. "; None; Some "Python, SQL."]
              Hread eq_refl) as [-> ->].
  exact Heq.
Defined.

(** C10, as stated, fails: a first page without text followed by a page
    that raises gives the empty string. *)
Lemma extract_partial_text_can_be_empty :
  Fs.read "uploads/temp_cv.pdf" (fs Ref.w_cv_saved) = inr Ref.pdf_bytes
  /\ Ref.image_page_then_failure Ref.pdf_bytes
     = inr (map page_ok [None] ++ inl "unsupported filter" :: [])%list
  /\ fst (extract_text_from_pdf (Ref.env Ref.image_page_then_failure None)
            "uploads/temp_cv.pdf" Ref.w_cv_saved)
     = inr "".
Proof. repeat split; vm_compute; reflexivity. Qed.

(** C10, amended.  When the pages [read] are extracted and the next page
    raises [e], the extractor returns the text of the pages read, prints
    the failure and does not raise; that text is not empty exactly when
    one of the pages read had text. *)
Theorem extract_text_from_pdf_partial (E : Env) (pdf_path : string) (w : world)
    (data : Fs.bytes) (read : list (option string)) (e : Py.exn)
    (rest : list page) :
  Fs.read pdf_path (fs w) = inr data ->
  PdfReader E data = inr (map page_ok read ++ inl e :: rest)%list ->
  extract_text_from_pdf E pdf_path w
  = (inr (concat_pages read), print ("PDF Error: " +:+ e) w)
  /\ (concat_pages read <> "" <-> exists t, In t read /\ Py.or_empty t <> "").
Proof.
  intros Hread Hpdf. split.
  - unfold extract_text_from_pdf.
    rewrite Hread, Hpdf, read_pages_stops. reflexivity.
  - apply concat_pages_nonempty.
Qed.

Lemma extract_text_from_pdf_partial_witness :
  Fs.read "uploads/temp_cv.pdf" (fs Ref.w_cv_saved) = inr Ref.pdf_bytes
  /\ Ref.second_page_fails Ref.pdf_bytes
     = inr (map page_ok [Some "Jane Doe. "]
              ++ inl "unsupported filter" :: [inr (Some "Python")])%list
  /\ extract_text_from_pdf (Ref.env Ref.second_page_fails None)
       "uploads/temp_cv.pdf" Ref.w_cv_saved
     = (inr "Jane Doe. ",
        print "PDF Error: unsupported filter" Ref.w_cv_saved).
Proof.
  split; [vm_compute; reflexivity |].
  split; [reflexivity |].
  exact (proj1 (extract_text_from_pdf_partial
                  (Ref.env Ref.second_page_fails None)
                  "uploads/temp_cv.pdf" Ref.w_cv_saved Ref.pdf_bytes
                  [Some "Jane Doe. "] "unsupported filter" [inr (Some "Python")]
                  ltac:(vm_compute; reflexivity) eq_refl)).
Defined.

(* ===================================================================== *)
(** ** The stages without a client *)
(* ===================================================================== *)

Lemma parse_resume_no_client (E : Env) (text : string) (w : world) :
  client E = None -> parse_resume E text w = (inr (Some NOT_INITIALIZED), w).
Proof. intros H. unfold parse_resume. now rewrite H. Qed.

Lemma parse_job_description_no_client (E : Env) (text : string) (w : world) :
  client E = None ->
  parse_job_description E text w = (inr (Some NOT_INITIALIZED), w).
Proof. intros H. unfold parse_job_description. now rewrite H. Qed.

Lemma get_final_json_analysis_no_client (E : Env) (pr pj : option string)
    (w : world) :
  client E = None ->
  get_final_json_analysis E pr pj w = (inr (Some (dumps mock_result)), w).
Proof. intros H. unfold get_final_json_analysis. now rewrite H. Qed.

(** C7.  Without a client both parse stages return the literal
    placeholder and leave the world, hence the network, untouched; the
    body of the handler then goes on to the synthesis stage with the two
    placeholders instead of stopping. *)
Theorem parse_stages_without_client (E : Env) :
  client E = None ->
  (forall text w,
     parse_resume E text w
     = (inr (Some "Error: AI Client not initialized."), w))
  /\ (forall text w,
        parse_job_description E text w
        = (inr (Some "Error: AI Client not initialized."), w))
  /\ (forall resume_file jd_text w,
        analyze_try E resume_file jd_text w
        = (let pdf_path := pdf_path_of resume_file in
           save resume_file pdf_path ;;
           extract_text_from_pdf E pdf_path ;;
           final_analysis_raw <-
             get_final_json_analysis E
               (Some "Error: AI Client not initialized.")
               (Some "Error: AI Client not initialized.") ;;
           final_data <- lift (json_loads E final_analysis_raw) ;;
           cleanup pdf_path ;;
           ret final_data)%py w).
Proof.
  intros H. split; [|split].
  - intros text w. now apply parse_resume_no_client.
  - intros text w. now apply parse_job_description_no_client.
  - intros resume_file jd_text w. unfold analyze_try, bind.
    destruct (save resume_file (pdf_path_of resume_file) w) as [[e|[]] w1];
      [reflexivity |].
    destruct (extract_text_from_pdf E (pdf_path_of resume_file) w1)
      as [[e|text] w2]; [reflexivity |].
    rewrite (parse_resume_no_client E text w2 H).
    rewrite (parse_job_description_no_client E jd_text w2 H).
    reflexivity.
Qed.

Lemma parse_stages_without_client_witness :
  client (Ref.env Ref.one_page None) = None
  /\ parse_resume (Ref.env Ref.one_page None) "Jane Doe. Python, SQL." Ref.w0
     = (inr (Some "Error: AI Client not initialized."), Ref.w0).
Proof.
  split; [reflexivity |].
  exact (proj1 (parse_stages_without_client (Ref.env Ref.one_page None) eq_refl)
           "Jane Doe. Python, SQL." Ref.w0).
Defined.

(* ===================================================================== *)
(** ** Input validation *)
(* ===================================================================== *)

(** C5, as stated, fails: a request without a resume file and without a
    job description is answered with the resume message, not with the
    job description message. *)
Lemma missing_both_fields_reports_resume :
  form_job_description (Request None None) = None
  /\ fst (analyze (Ref.env Ref.one_page None) (Request None None) Ref.w0)
     = Response 400 (JObj [("error", JStr "Resume PDF is required")])
  /\ fst (analyze (Ref.env Ref.one_page None) (Request None None) Ref.w0)
     <> Response 400 (JObj [("error", JStr "Job description is required")]).
Proof. repeat split. discriminate. Qed.

(** C5, amended.  A request without a resume file is answered with 400
    and the resume message, whatever its job description, and the world
    is left as it was.  A request with a resume file whose job
    description is absent or empty is answered with 400 and the job
    description message; the file system and the network are left as
    they were. *)
Theorem analyze_rejects_invalid_input (E : Env) (req : request) (w : world) :
  (files_resume req = None ->
   analyze E req w
   = (Response 400 (JObj [("error", JStr "Resume PDF is required")]), w))
  /\ (forall resume_file,
        files_resume req = Some resume_file ->
        form_job_description req = None \/ form_job_description req = Some "" ->
        exists w',
          analyze E req w
          = (Response 400 (JObj [("error", JStr "Job description is required")]),
             w')
          /\ fs w' = fs w /\ net w' = net w).
Proof.
  split.
  - intros H. unfold analyze. now rewrite H.
  - intros resume_file Hfile Hjd. apply truthy_false in Hjd.
    unfold analyze. rewrite Hfile, Hjd. simpl.
    eexists. split; [reflexivity | split; reflexivity].
Qed.

Lemma analyze_rejects_invalid_input_witness :
  files_resume (Request (Some Ref.cv) (Some "")) = Some Ref.cv
  /\ form_job_description (Request (Some Ref.cv) (Some "")) = Some ""
  /\ exists w',
       analyze (Ref.env Ref.one_page (Some Ref.stub_good))
         (Request (Some Ref.cv) (Some "")) Ref.w0
       = (Response 400 (JObj [("error", JStr "Job description is required")]), w')
       /\ fs w' = fs Ref.w0 /\ net w' = net Ref.w0.
Proof.
  split; [reflexivity |]. split; [reflexivity |].
  exact (proj2 (analyze_rejects_invalid_input
                  (Ref.env Ref.one_page (Some Ref.stub_good))
                  (Request (Some Ref.cv) (Some "")) Ref.w0)
           Ref.cv eq_refl (or_intror eq_refl)).
Defined.

(* ===================================================================== *)
(** ** Facts about the file system *)
(* ===================================================================== *)

Section FsFacts.
Import Fs.
Local Open Scope list_scope.

Lemma is_dir_with_files (f : fs) (m : gmap loc bytes) (l : loc) :
  is_dir (with_files f m) l = is_dir f l.
Proof. reflexivity. Qed.

(** A walk that succeeds looks at directories only. *)
Lemma walk_ok_with_files (f : fs) (m : gmap loc bytes) (path : string)
    (comps : list string) :
  forall cur l,
    walk f path cur comps = inr l ->
    walk (with_files f m) path cur comps = inr l.
Proof.
  induction comps as [|c comps IH]; intros cur l H; simpl in *; [exact H |].
  rewrite is_dir_with_files.
  destruct (is_dir f cur).
  - destruct (String.eqb c "" || String.eqb c "."); [now apply IH |].
    destruct (String.eqb c ".."); now apply IH.
  - destruct (is_file f cur); discriminate.
Qed.

Lemma resolve_ok_with_files (f : fs) (m : gmap loc bytes) (path : string)
    (l : loc) :
  resolve f path = inr l -> resolve (with_files f m) path = inr l.
Proof.
  unfold resolve. destruct (has_nul path); [discriminate |].
  destruct (String.eqb path ""); [discriminate |].
  apply walk_ok_with_files.
Qed.

Lemma write_inv (path : string) (data : bytes) (f f' : fs) :
  write path data f = inr f' ->
  exists l, resolve f path = inr l /\ is_dir f l = false
            /\ f' = with_files f (<[l := data]> (files f)).
Proof.
  unfold write. destruct (resolve f path) as [e|l]; [discriminate |].
  destruct (is_dir f l) eqn:Hd; [discriminate |].
  intros [= <-]. eauto.
Qed.

(** Writing the same path again, whatever happened to the files. *)
Lemma write_with_files (path : string) (data : bytes) (f : fs) (l : loc)
    (m : gmap loc bytes) :
  resolve f path = inr l -> is_dir f l = false ->
  write path data (with_files f m) = inr (with_files f (<[l := data]> m)).
Proof.
  intros Hr Hd. unfold write.
  rewrite (resolve_ok_with_files f m path l Hr), is_dir_with_files, Hd.
  reflexivity.
Qed.

Lemma exists_with_file (path : string) (data : bytes) (f : fs) (l : loc)
    (m : gmap loc bytes) :
  resolve f path = inr l ->
  exists_ path (with_files f (<[l := data]> m)) = true.
Proof.
  intros Hr. unfold exists_.
  rewrite (resolve_ok_with_files f _ path l Hr).
  unfold is_file. simpl. rewrite lookup_insert_eq.
  apply orb_true_r.
Qed.

Lemma read_with_file (path : string) (data : bytes) (f : fs) (l : loc)
    (m : gmap loc bytes) :
  resolve f path = inr l -> is_dir f l = false ->
  read path (with_files f (<[l := data]> m)) = inr data.
Proof.
  intros Hr Hd. unfold read.
  rewrite (resolve_ok_with_files f _ path l Hr), is_dir_with_files, Hd.
  simpl. now rewrite lookup_insert_eq.
Qed.

Lemma remove_with_file (path : string) (data : bytes) (f : fs) (l : loc)
    (m : gmap loc bytes) :
  resolve f path = inr l -> is_dir f l = false ->
  remove path (with_files f (<[l := data]> m))
  = inr (with_files f (delete l m)).
Proof.
  intros Hr Hd. unfold remove.
  rewrite (resolve_ok_with_files f _ path l Hr), is_dir_with_files, Hd.
  unfold is_file. simpl. rewrite lookup_insert_eq.
  unfold with_files. simpl. now rewrite delete_insert_eq.
Qed.

Lemma exists_without_file (path : string) (f : fs) (l : loc)
    (m : gmap loc bytes) :
  resolve f path = inr l -> is_dir f l = false ->
  exists_ path (with_files f (delete l m)) = false.
Proof.
  intros Hr Hd. unfold exists_.
  rewrite (resolve_ok_with_files f _ path l Hr), is_dir_with_files, Hd.
  unfold is_file. simpl. now rewrite lookup_delete_eq.
Qed.

(** [posixpath.join] on the upload folder and a name that starts with
    [temp_]. *)
Lemma join_uploads (name : string) :
  join UPLOAD_FOLDER ("temp_" +:+ name) = "uploads/temp_" +:+ name.
Proof. reflexivity. Qed.

End FsFacts.

(* ===================================================================== *)
(** ** Facts about a run of the handler *)
(* ===================================================================== *)

Section RunFacts.

Variable E : Env.

Lemma pdf_path_of_eq (resume_file : upload) :
  pdf_path_of resume_file = "uploads/temp_" +:+ filename resume_file.
Proof. reflexivity. Qed.

(** The handler on a request that passes validation. *)
Lemma analyze_valid (req : request) (resume_file : upload) (jd_text : string)
    (w : world) :
  files_resume req = Some resume_file ->
  form_job_description req = Some jd_text -> jd_text <> "" ->
  analyze E req w
  = match analyze_try E resume_file jd_text
            (print (debug_line resume_file (Some jd_text)) w) with
    | (inr final_data, w') => (Response 200 final_data, w')
    | (inl e, w') =>
        (Response 500 (jsonify_error ("Analysis failed: " +:+ e)),
         print ("Internal Error: " +:+ e) w')
    end.
Proof.
  intros Hf Hjd Hne. unfold analyze. rewrite Hf, Hjd.
  destruct jd_text as [|c s]; [congruence |]. reflexivity.
Qed.

Lemma analyze_try_save_fails (resume_file : upload) (jd_text : string)
    (w : world) (e : Py.exn) :
  Fs.write (pdf_path_of resume_file) (stream resume_file) (fs w) = inl e ->
  analyze_try E resume_file jd_text w = (inl e, w).
Proof.
  intros H. unfold analyze_try, bind, save, fs_update. now rewrite H.
Qed.

Lemma analyze_try_saved (resume_file : upload) (jd_text : string)
    (w : world) (f1 : Fs.fs) :
  Fs.write (pdf_path_of resume_file) (stream resume_file) (fs w) = inr f1 ->
  analyze_try E resume_file jd_text w
  = after_save E (pdf_path_of resume_file) jd_text (with_fs w f1).
Proof.
  intros H. unfold analyze_try, after_save, save, fs_update.
  unfold bind at 1. now rewrite H.
Qed.

(** The extractor always returns. *)
Lemma extract_returns (pdf_path : string) (w : world) :
  exists text w',
    extract_text_from_pdf E pdf_path w = (inr text, w')
    /\ fs w' = fs w /\ net w' = net w.
Proof.
  unfold extract_text_from_pdf.
  destruct (Fs.read pdf_path (fs w)) as [e|data].
  - eexists _, _. split; [reflexivity | split; reflexivity].
  - destruct (PdfReader E data) as [e|pages].
    + eexists _, _. split; [reflexivity | split; reflexivity].
    + destruct (read_pages pages "") as [text [e|]];
        eexists _, _; (split; [reflexivity | split; reflexivity]).
Qed.

(** The statements after the save, stage by stage. *)
Lemma after_save_stages (pdf_path jd_text text : string) (w1 w2 : world) :
  extract_text_from_pdf E pdf_path w1 = (inr text, w2) ->
  after_save E pdf_path jd_text w1
  = match parse_resume E text w2 with
    | (inl e, w3) => (inl e, w3)
    | (inr pr, w3) =>
        match parse_job_description E jd_text w3 with
        | (inl e, w4) => (inl e, w4)
        | (inr pj, w4) =>
            match get_final_json_analysis E pr pj w4 with
            | (inl e, w5) => (inl e, w5)
            | (inr raw, w5) =>
                match json_loads E raw with
                | inl e => (inl e, w5)
                | inr final_data =>
                    match cleanup pdf_path w5 with
                    | (inl e, w6) => (inl e, w6)
                    | (inr _, w6) => (inr final_data, w6)
                    end
                end
            end
        end
    end.
Proof.
  intros Hx. unfold after_save, bind. rewrite Hx.
  destruct (parse_resume E text w2) as [[e|pr] w3]; [reflexivity |].
  destruct (parse_job_description E jd_text w3) as [[e|pj] w4]; [reflexivity |].
  destruct (get_final_json_analysis E pr pj w4) as [[e|raw] w5]; [reflexivity |].
  unfold lift. destruct (json_loads E raw) as [e|d]; [reflexivity |].
  destruct (cleanup pdf_path w5) as [[e|[]] w6]; reflexivity.
Qed.

(** With a client, each stage is one call. *)
Lemma parse_resume_live (c : backend) (text : string) (w : world) :
  client E = Some c ->
  parse_resume E text w = (c (net w) (resume_call text), sent (resume_call text) w).
Proof. intros H. unfold parse_resume. now rewrite H. Qed.

Lemma parse_job_description_live (c : backend) (jd_text : string) (w : world) :
  client E = Some c ->
  parse_job_description E jd_text w
  = (c (net w) (jd_call jd_text), sent (jd_call jd_text) w).
Proof. intros H. unfold parse_job_description. now rewrite H. Qed.

Lemma get_final_json_analysis_live (c : backend) (pr pj : option string)
    (w : world) :
  client E = Some c ->
  get_final_json_analysis E pr pj w
  = (c (net w) (final_call pr pj), sent (final_call pr pj) w).
Proof. intros H. unfold get_final_json_analysis. now rewrite H. Qed.

(** A stage leaves the files alone and sends at most one call. *)
Lemma parse_resume_one_call (text : string) :
  one_call_at_most (parse_resume E text).
Proof.
  intros w r w'. unfold parse_resume, generate_content, ret.
  destruct (client E); intros [= <- <-]; (split; [reflexivity |]).
  - eexists [_]. split; [reflexivity | simpl; lia].
  - exists []. split; [now rewrite app_nil_r | simpl; lia].
Qed.

Lemma parse_job_description_one_call (jd_text : string) :
  one_call_at_most (parse_job_description E jd_text).
Proof.
  intros w r w'. unfold parse_job_description, generate_content, ret.
  destruct (client E); intros [= <- <-]; (split; [reflexivity |]).
  - eexists [_]. split; [reflexivity | simpl; lia].
  - exists []. split; [now rewrite app_nil_r | simpl; lia].
Qed.

Lemma get_final_json_analysis_one_call (pr pj : option string) :
  one_call_at_most (get_final_json_analysis E pr pj).
Proof.
  intros w r w'. unfold get_final_json_analysis, generate_content, ret.
  destruct (client E); intros [= <- <-]; (split; [reflexivity |]).
  - eexists [_]. split; [reflexivity | simpl; lia].
  - exists []. split; [now rewrite app_nil_r | simpl; lia].
Qed.

Lemma cleanup_net (pdf_path : string) (w : world) :
  net (snd (cleanup pdf_path w)) = net w.
Proof.
  unfold cleanup, fs_update, ret.
  destruct (Fs.exists_ pdf_path (fs w)); [|reflexivity].
  destruct (Fs.remove pdf_path (fs w)); reflexivity.
Qed.

End RunFacts.

Section CallCount.

Variable E : Env.
Local Open Scope list_scope.

Lemma after_save_calls (pdf_path jd_text : string) (w1 : world) :
  exists calls,
    net (snd (after_save E pdf_path jd_text w1)) = net w1 ++ calls
    /\ length calls <= 3.
Proof.
  destruct (extract_returns E pdf_path w1) as (text & w2 & Hx & _ & Hn2).
  rewrite (after_save_stages E pdf_path jd_text text w1 w2 Hx).
  destruct (parse_resume E text w2) as [r3 w3] eqn:H3.
  destruct (parse_resume_one_call E text w2 r3 w3 H3)
    as (_ & c3 & Hn3 & Hl3).
  destruct r3 as [e|pr].
  { exists c3. simpl. rewrite Hn3, Hn2. split; [reflexivity | lia]. }
  destruct (parse_job_description E jd_text w3) as [r4 w4] eqn:H4.
  destruct (parse_job_description_one_call E jd_text w3 r4 w4 H4)
    as (_ & c4 & Hn4 & Hl4).
  destruct r4 as [e|pj].
  { exists (c3 ++ c4). simpl. rewrite Hn4, Hn3, Hn2, <- app_assoc.
    split; [reflexivity | rewrite length_app; lia]. }
  destruct (get_final_json_analysis E pr pj w4) as [r5 w5] eqn:H5.
  destruct (get_final_json_analysis_one_call E pr pj w4 r5 w5 H5)
    as (_ & c5 & Hn5 & Hl5).
  assert (Hn : net w5 = net w1 ++ (c3 ++ c4 ++ c5)).
  { rewrite Hn5, Hn4, Hn3, Hn2, <- !app_assoc. reflexivity. }
  assert (Hl : length (c3 ++ c4 ++ c5) <= 3).
  { rewrite !length_app. lia. }
  destruct r5 as [e|raw].
  { exists (c3 ++ c4 ++ c5). simpl. auto. }
  destruct (json_loads E raw) as [e|d].
  { exists (c3 ++ c4 ++ c5). simpl. auto. }
  pose proof (cleanup_net pdf_path w5) as Hc.
  destruct (cleanup pdf_path w5) as [[e|[]] w6]; simpl in Hc;
    exists (c3 ++ c4 ++ c5); simpl; rewrite Hc; auto.
Qed.

(** A request sends at most three calls to the generation service. *)
Lemma analyze_calls (req : request) (w : world) :
  exists calls,
    net (snd (analyze E req w)) = net w ++ calls /\ length calls <= 3.
Proof.
  unfold analyze.
  destruct (files_resume req) as [resume_file|].
  2:{ exists []. simpl. rewrite app_nil_r. split; [reflexivity | lia]. }
  destruct (negb (Py.truthy (form_job_description req))).
  { exists []. simpl. rewrite app_nil_r. split; [reflexivity | lia]. }
  set (w0 := print _ w).
  destruct (Fs.write (pdf_path_of resume_file) (stream resume_file) (fs w0))
    as [e|f1] eqn:Hw.
  - rewrite (analyze_try_save_fails E _ _ _ _ Hw).
    exists []. simpl. rewrite app_nil_r. split; [reflexivity | lia].
  - rewrite (analyze_try_saved E _ _ _ _ Hw).
    destruct (after_save_calls (pdf_path_of resume_file)
                (Py.str (form_job_description req)) (with_fs w0 f1))
      as (calls & Hn & Hl).
    destruct (after_save E _ _ (with_fs w0 f1)) as [[e|d] w'];
      exists calls; simpl in *; auto.
Qed.

End CallCount.

(* ===================================================================== *)
(** ** Failures of the pipeline *)
(* ===================================================================== *)

(** C3, as stated, fails for the reading of the document: PyPDF2 raises
    on the uploaded bytes, the extractor prints the failure, and the
    request is answered with 200. *)
Lemma reading_failure_is_not_a_500 :
  valid (Ref.valid_request Ref.cv)
  /\ PdfReader (Ref.env Ref.not_a_pdf None) (stream Ref.cv)
     = inl "EOF marker not found"
  /\ In "PDF Error: EOF marker not found"
       (stdout (snd (analyze (Ref.env Ref.not_a_pdf None)
                       (Ref.valid_request Ref.cv) Ref.w0)))
  /\ status (fst (analyze (Ref.env Ref.not_a_pdf None)
                    (Ref.valid_request Ref.cv) Ref.w0)) = 200%Z.
Proof.
  split; [split; [eexists; reflexivity | reflexivity] |].
  split; [reflexivity |].
  split; vm_compute; auto.
Qed.

(** C3, amended.  For a request that passes validation, an exception
    raised by the save of the upload, by one of the three generation
    stages, or by [json.loads] on the text of the last stage, ends the
    request with HTTP 500 and the body
    [{"error": "Analysis failed: <message>"}]; the world is the one at
    the raise plus one printed line, so nothing runs after the failure.
    With a client, a stage is exactly one call to the generation
    service and raises what the call raises; a request sends at most
    three calls.  (An exception raised while the document is read is
    handled inside the extractor and is not among these.) *)
Theorem analyze_failures_become_500 (E : Env) (req : request) (w : world)
    (resume_file : upload) (jd_text : string) :
  files_resume req = Some resume_file ->
  form_job_description req = Some jd_text ->
  jd_text <> "" ->
  let pdf_path := "uploads/temp_" +:+ filename resume_file in
  let w0 := print (debug_line resume_file (Some jd_text)) w in
  let failed (e : Py.exn) (w_raise : world) :=
    analyze E req w
    = (Response 500 (JObj [("error", JStr ("Analysis failed: " +:+ e))]),
       print ("Internal Error: " +:+ e) w_raise) in
  (forall e,
     Fs.write pdf_path (stream resume_file) (fs w0) = inl e -> failed e w0)
  /\ (forall f1 text w2,
        Fs.write pdf_path (stream resume_file) (fs w0) = inr f1 ->
        extract_text_from_pdf E pdf_path (with_fs w0 f1) = (inr text, w2) ->
        (forall e w3, parse_resume E text w2 = (inl e, w3) -> failed e w3)
        /\ (forall pr w3,
              parse_resume E text w2 = (inr pr, w3) ->
              (forall e w4,
                 parse_job_description E jd_text w3 = (inl e, w4) -> failed e w4)
              /\ (forall pj w4,
                    parse_job_description E jd_text w3 = (inr pj, w4) ->
                    (forall e w5,
                       get_final_json_analysis E pr pj w4 = (inl e, w5) ->
                       failed e w5)
                    /\ (forall raw w5 e,
                          get_final_json_analysis E pr pj w4 = (inr raw, w5) ->
                          json_loads E raw = inl e ->
                          failed e w5))))
  /\ (forall c,
        client E = Some c ->
        forall w1,
          (forall text,
             parse_resume E text w1
             = (c (net w1) (resume_call text), sent (resume_call text) w1))
          /\ (forall jd,
                parse_job_description E jd w1
                = (c (net w1) (jd_call jd), sent (jd_call jd) w1))
          /\ (forall pr pj,
                get_final_json_analysis E pr pj w1
                = (c (net w1) (final_call pr pj), sent (final_call pr pj) w1)))
  /\ (exists calls,
        net (snd (analyze E req w)) = (net w ++ calls)%list
        /\ length calls <= 3).
Proof.
  intros Hf Hjd Hne pdf_path w0 failed.
  assert (Hp : pdf_path = pdf_path_of resume_file) by reflexivity.
  clearbody pdf_path. subst pdf_path.
  assert (Hv := analyze_valid E req resume_file jd_text w Hf Hjd Hne).
  fold w0 in Hv.
  split; [|split; [|split]].
  - intros e Hw. unfold failed. rewrite Hv.
    now rewrite (analyze_try_save_fails E resume_file jd_text w0 e Hw).
  - intros f1 text w2 Hw Hx.
    assert (Hs := analyze_try_saved E resume_file jd_text w0 f1 Hw).
    rewrite (after_save_stages E _ jd_text text _ w2 Hx) in Hs.
    split.
    + intros e w3 H3. unfold failed. rewrite Hv, Hs, H3. reflexivity.
    + intros pr w3 H3. split.
      * intros e w4 H4. unfold failed. rewrite Hv, Hs, H3, H4. reflexivity.
      * intros pj w4 H4. split.
        -- intros e w5 H5. unfold failed. rewrite Hv, Hs, H3, H4, H5.
           reflexivity.
        -- intros raw w5 e H5 Hj. unfold failed.
           rewrite Hv, Hs, H3, H4, H5, Hj. reflexivity.
  - intros c Hc w1. split; [|split].
    + intros text. now apply parse_resume_live.
    + intros jd. now apply parse_job_description_live.
    + intros pr pj. now apply get_final_json_analysis_live.
  - apply analyze_calls.
Qed.

Lemma analyze_failures_become_500_witness :
  files_resume (Ref.valid_request Ref.cv) = Some Ref.cv
  /\ form_job_description (Ref.valid_request Ref.cv) = Some Ref.jd
  /\ Ref.jd <> ""
  /\ fst (analyze (Ref.env Ref.one_page (Some Ref.stub_down))
            (Ref.valid_request Ref.cv) Ref.w0)
     = Response 500 (JObj [("error", JStr "Analysis failed: 503 UNAVAILABLE")])
  /\ net (snd (analyze (Ref.env Ref.one_page (Some Ref.stub_down))
                 (Ref.valid_request Ref.cv) Ref.w0))
     = [resume_call "Jane Doe. Python, SQL."].
Proof.
  split; [reflexivity |]. split; [reflexivity |]. split; [discriminate |].
  pose proof (analyze_failures_become_500
                (Ref.env Ref.one_page (Some Ref.stub_down))
                (Ref.valid_request Ref.cv) Ref.w0 Ref.cv Ref.jd
                eq_refl eq_refl ltac:(discriminate)) as H.
  destruct H as (_ & H & _).
  specialize (H (fs Ref.w_cv_saved) "Jane Doe. Python, SQL."
                (with_fs (print (debug_line Ref.cv (Some Ref.jd)) Ref.w0)
                   (fs Ref.w_cv_saved))
                ltac:(vm_compute; reflexivity) ltac:(vm_compute; reflexivity)).
  destruct H as [H _].
  specialize (H "503 UNAVAILABLE" _ eq_refl).
  rewrite H. split; reflexivity.
Defined.

(* ===================================================================== *)
(** ** The temporary file *)
(* ===================================================================== *)

Section TemporaryFile.

Variable E : Env.

(** After a save that succeeded, the cleanup finds the file and
    removes it. *)
Lemma cleanup_after_write (path : string) (data : Fs.bytes) (f f1 : Fs.fs)
    (w : world) :
  Fs.write path data f = inr f1 ->
  fs w = f1 ->
  exists l,
    Fs.resolve f path = inr l /\ Fs.is_dir f l = false
    /\ f1 = Fs.with_files f (<[l := data]> (Fs.files f))
    /\ cleanup path w
       = (inr tt, with_fs w (Fs.with_files f (delete l (Fs.files f)))).
Proof.
  intros Hw Hfs. apply write_inv in Hw as (l & Hr & Hd & ->).
  exists l. repeat split; auto.
  unfold cleanup, fs_update. rewrite Hfs.
  rewrite (exists_with_file path data f l _ Hr).
  now rewrite (remove_with_file path data f l _ Hr Hd).
Qed.

(** The files after the statements that follow a successful save: the
    temporary file is gone when they return, and still there when
    they raise. *)
Lemma after_save_files (path jd_text : string) (data : Fs.bytes)
    (f f1 : Fs.fs) (w1 : world) :
  Fs.write path data f = inr f1 ->
  fs w1 = f1 ->
  exists l,
    Fs.resolve f path = inr l /\ Fs.is_dir f l = false
    /\ f1 = Fs.with_files f (<[l := data]> (Fs.files f))
    /\ match after_save E path jd_text w1 with
       | (inr _, w') => fs w' = Fs.with_files f (delete l (Fs.files f))
       | (inl _, w') => fs w' = f1
       end.
Proof.
  intros Hw Hfs.
  destruct (extract_returns E path w1) as (text & w2 & Hx & Hf2 & _).
  rewrite (after_save_stages E path jd_text text w1 w2 Hx).
  destruct (parse_resume E text w2) as [r3 w3] eqn:H3.
  destruct (parse_resume_one_call E text w2 r3 w3 H3) as (Hf3 & _).
  destruct (parse_job_description E jd_text w3) as [r4 w4] eqn:H4.
  destruct (parse_job_description_one_call E jd_text w3 r4 w4 H4) as (Hf4 & _).
  assert (Hfs3 : fs w3 = f1) by congruence.
  assert (Hfs4 : fs w4 = f1) by congruence.
  destruct (cleanup_after_write path data f f1 w1 Hw Hfs)
    as (l & Hr & Hd & Hf1 & _).
  exists l. repeat split; auto.
  destruct r3 as [e|pr]; [exact Hfs3 |].
  destruct r4 as [e|pj]; [exact Hfs4 |].
  destruct (get_final_json_analysis E pr pj w4) as [r5 w5] eqn:H5.
  destruct (get_final_json_analysis_one_call E pr pj w4 r5 w5 H5) as (Hf5 & _).
  assert (Hfs5 : fs w5 = f1) by congruence.
  destruct r5 as [e|raw]; [exact Hfs5 |].
  destruct (json_loads E raw) as [e|d]; [exact Hfs5 |].
  destruct (cleanup_after_write path data f f1 w5 Hw Hfs5)
    as (l' & Hr' & _ & _ & Hc).
  assert (l' = l) by congruence. subst l'.
  rewrite Hc. reflexivity.
Qed.


End TemporaryFile.

(** C4.  The backend is down: the first generation call raises.  The
    request ends with HTTP 500 and the temporary file, absent before
    the request, is still in the upload folder afterwards. *)
Theorem temp_file_left_after_failure :
  let E := Ref.env Ref.one_page (Some Ref.stub_down) in
  let run := analyze E (Ref.valid_request Ref.cv) Ref.w0 in
  Fs.exists_ "uploads/temp_cv.pdf" (fs Ref.w0) = false
  /\ fst run
     = Response 500 (JObj [("error", JStr "Analysis failed: 503 UNAVAILABLE")])
  /\ Fs.exists_ "uploads/temp_cv.pdf" (fs (snd run)) = true
  /\ Fs.read "uploads/temp_cv.pdf" (fs (snd run)) = inr (stream Ref.cv).
Proof. repeat split; vm_compute; reflexivity. Qed.

(* ===================================================================== *)
(** ** The body of a 200 response *)
(* ===================================================================== *)

(** C1, as stated, fails: the backend answers every call, its synthesis
    answer is the JSON text [{"score": 150}], and the handler returns
    it with 200 although it is outside the schema. *)
Lemma out_of_schema_body_with_200 :
  valid (Ref.valid_request Ref.cv)
  /\ analyze (Ref.env Ref.one_page (Some Ref.stub_score_150))
       (Ref.valid_request Ref.cv) Ref.w0
     = (Response 200 (JObj [("score", JInt 150)]),
        snd (analyze (Ref.env Ref.one_page (Some Ref.stub_score_150))
               (Ref.valid_request Ref.cv) Ref.w0))
  /\ conforms (JObj [("score", JInt 150)]) = false.
Proof.
  split; [split; [eexists; reflexivity | reflexivity] |].
  split; [vm_compute; reflexivity | reflexivity].
Qed.

(** C1, amended.  When the handler answers 200, the request had a
    resume file and a non-empty job description, and the body is the
    value [json.loads] decodes from the text the synthesis stage
    returned, passed on without validation; so the body conforms to the
    AnalysisResult schema exactly when the decoded synthesis answer
    does.  Conversely, when the upload is saved, the three stages
    return and the synthesis text decodes to a value, the answer is 200
    with that value as body. *)
Theorem analyze_200_body (E : Env) (req : request) (w : world) :
  (forall resp w',
     analyze E req w = (resp, w') ->
     status resp = 200%Z ->
     exists resume_file jd_text pr pj w4 raw w5,
       files_resume req = Some resume_file
       /\ form_job_description req = Some jd_text /\ jd_text <> ""
       /\ get_final_json_analysis E pr pj w4 = (inr raw, w5)
       /\ json_loads E raw = inr (body resp)
       /\ (conforms (body resp) = true
           <-> exists v, json_loads E raw = inr v /\ conforms v = true))
  /\ (forall resume_file jd_text f1 text w2 pr w3 pj w4 raw w5 v,
        files_resume req = Some resume_file ->
        form_job_description req = Some jd_text -> jd_text <> "" ->
        Fs.write (pdf_path_of resume_file) (stream resume_file) (fs w) = inr f1 ->
        extract_text_from_pdf E (pdf_path_of resume_file)
          (with_fs (print (debug_line resume_file (Some jd_text)) w) f1)
        = (inr text, w2) ->
        parse_resume E text w2 = (inr pr, w3) ->
        parse_job_description E jd_text w3 = (inr pj, w4) ->
        get_final_json_analysis E pr pj w4 = (inr raw, w5) ->
        json_loads E raw = inr v ->
        fst (analyze E req w) = Response 200 v).
Proof.
  split.
  - intros resp w' Ha Hs.
    destruct (files_resume req) as [resume_file|] eqn:Hf.
    2:{ unfold analyze in Ha. rewrite Hf in Ha. injection Ha as <- <-.
        discriminate. }
    destruct (Py.truthy (form_job_description req)) eqn:Ht.
    2:{ unfold analyze in Ha. rewrite Hf, Ht in Ha. simpl in Ha.
        injection Ha as <- <-. discriminate. }
    apply truthy_true in Ht as (jd_text & Hjd & Hne & _).
    rewrite (analyze_valid E req resume_file jd_text w Hf Hjd Hne) in Ha.
    set (w0 := print _ w) in Ha.
    destruct (Fs.write (pdf_path_of resume_file) (stream resume_file) (fs w0))
      as [e|f1] eqn:Hw.
    { rewrite (analyze_try_save_fails E _ _ _ _ Hw) in Ha.
      injection Ha as <- <-. discriminate. }
    rewrite (analyze_try_saved E _ _ _ _ Hw) in Ha.
    destruct (extract_returns E (pdf_path_of resume_file) (with_fs w0 f1))
      as (text & w2 & Hx & _).
    rewrite (after_save_stages E _ jd_text text _ w2 Hx) in Ha.
    destruct (parse_resume E text w2) as [[e|pr] w3];
      [injection Ha as <- <-; discriminate |].
    destruct (parse_job_description E jd_text w3) as [[e|pj] w4];
      [injection Ha as <- <-; discriminate |].
    destruct (get_final_json_analysis E pr pj w4) as [[e|raw] w5] eqn:H5;
      [injection Ha as <- <-; discriminate |].
    destruct (json_loads E raw) as [e|d] eqn:Hj;
      [injection Ha as <- <-; discriminate |].
    destruct (cleanup (pdf_path_of resume_file) w5) as [[e|[]] w6];
      injection Ha as <- <-; [discriminate |].
    exists resume_file, jd_text, pr, pj, w4, raw, w5.
    repeat split; auto.
    + intros Hc. exists d. auto.
    + intros (v & Hv & Hc). simpl. congruence.
  - intros resume_file jd_text f1 text w2 pr w3 pj w4 raw w5 v
           Hf Hjd Hne Hw Hx H3 H4 H5 Hj.
    rewrite (analyze_valid E req resume_file jd_text w Hf Hjd Hne).
    set (w0 := print _ w) in *.
    assert (Hw0 : Fs.write (pdf_path_of resume_file) (stream resume_file) (fs w0)
                  = inr f1) by exact Hw.
    rewrite (analyze_try_saved E _ _ _ _ Hw0).
    rewrite (after_save_stages E _ jd_text text _ w2 Hx), H3, H4, H5, Hj.
    destruct (extract_returns E (pdf_path_of resume_file) (with_fs w0 f1))
      as (text' & w2' & Hx' & Hf2 & _).
    rewrite Hx in Hx'. injection Hx' as <- <-.
    destruct (parse_resume_one_call E text w2 _ w3 H3) as (Hf3 & _).
    destruct (parse_job_description_one_call E jd_text w3 _ w4 H4) as (Hf4 & _).
    destruct (get_final_json_analysis_one_call E pr pj w4 _ w5 H5) as (Hf5 & _).
    assert (Hfs5 : fs w5 = f1) by (rewrite Hf5, Hf4, Hf3, Hf2; reflexivity).
    destruct (cleanup_after_write (pdf_path_of resume_file) (stream resume_file)
                (fs w) f1 w5 Hw Hfs5) as (l & _ & _ & _ & Hcl).
    rewrite Hcl. reflexivity.
Qed.

Lemma analyze_200_body_witness :
  analyze (Ref.env Ref.one_page (Some Ref.stub_good))
    (Ref.valid_request Ref.cv) Ref.w0
  = (Response 200 Ref.good_result,
     snd (analyze (Ref.env Ref.one_page (Some Ref.stub_good))
            (Ref.valid_request Ref.cv) Ref.w0))
  /\ status (Response 200 Ref.good_result) = 200%Z
  /\ exists raw,
       json_loads (Ref.env Ref.one_page (Some Ref.stub_good)) raw
       = inr Ref.good_result.
Proof.
  assert (Ha : analyze (Ref.env Ref.one_page (Some Ref.stub_good))
                 (Ref.valid_request Ref.cv) Ref.w0
               = (Response 200 Ref.good_result,
                  snd (analyze (Ref.env Ref.one_page (Some Ref.stub_good))
                         (Ref.valid_request Ref.cv) Ref.w0)))
    by (vm_compute; reflexivity).
  split; [exact Ha |]. split; [reflexivity |].
  destruct (proj1 (analyze_200_body _ _ _) _ _ Ha eq_refl)
    as (_ & _ & _ & _ & _ & raw & _ & _ & _ & _ & _ & Hj & _).
  exists raw. exact Hj.
Defined.

(* ===================================================================== *)
(** ** Requests served without a client *)
(* ===================================================================== *)

(** C2, as stated, fails: without a client, a request with a resume
    file named [a/b.pdf] and a job description is answered with 500,
    because the upload cannot be saved. *)
Lemma no_client_request_can_end_in_500 :
  client (Ref.env Ref.one_page None) = None
  /\ valid (Ref.valid_request Ref.cv_in_subfolder)
  /\ fst (analyze (Ref.env Ref.one_page None)
            (Ref.valid_request Ref.cv_in_subfolder) Ref.w0)
     = Response 500
         (JObj [("error",
                 JStr "Analysis failed: [Errno 2] No such file or directory: 'uploads/temp_a/b.pdf'")]).
Proof.
  split; [reflexivity |].
  split; [split; [eexists; reflexivity | reflexivity] |].
  vm_compute. reflexivity.
Qed.

(** C2, amended.  Let the client be uninitialised and let [json.loads]
    decode the mock text to the mock object.  The synthesis stage
    returns the mock JSON text and leaves the world, hence the network,
    untouched.  Every request that passes validation and whose upload
    is saved is answered with 200 and the mock object, which conforms
    to the schema, has score 0 and a summary that names the client
    error; no call is sent.  A 500 answer occurs only when the save of
    the upload raised, and then carries that message. *)
Theorem analyze_without_client (E : Env) (req : request) (w : world)
    (resume_file : upload) (jd_text : string) :
  client E = None ->
  loads E (dumps mock_result) = inr mock_result ->
  files_resume req = Some resume_file ->
  form_job_description req = Some jd_text ->
  jd_text <> "" ->
  let pdf_path := "uploads/temp_" +:+ filename resume_file in
  (forall pr pj w1,
     get_final_json_analysis E pr pj w1 = (inr (Some (dumps mock_result)), w1))
  /\ (forall f1,
        Fs.write pdf_path (stream resume_file) (fs w) = inr f1 ->
        fst (analyze E req w) = Response 200 mock_result
        /\ net (snd (analyze E req w)) = net w)
  /\ (forall e,
        Fs.write pdf_path (stream resume_file) (fs w) = inl e ->
        fst (analyze E req w)
        = Response 500 (JObj [("error", JStr ("Analysis failed: " +:+ e))]))
  /\ (status (fst (analyze E req w)) = 500%Z ->
      exists e, Fs.write pdf_path (stream resume_file) (fs w) = inl e)
  /\ conforms mock_result = true
  /\ member "score" mock_result = Some (JInt 0)
  /\ member "summary" mock_result = Some (JStr "AI Error: Client not connected.").
Proof.
  intros Hc Hl Hf Hjd Hne pdf_path.
  assert (Hp : pdf_path = pdf_path_of resume_file) by reflexivity.
  clearbody pdf_path. subst pdf_path.
  assert (Hv := analyze_valid E req resume_file jd_text w Hf Hjd Hne).
  set (w0 := print _ w) in Hv.
  assert (Hok : forall f1,
            Fs.write (pdf_path_of resume_file) (stream resume_file) (fs w) = inr f1 ->
            fst (analyze E req w) = Response 200 mock_result
            /\ net (snd (analyze E req w)) = net w).
  { intros f1 Hw.
    assert (Hw0 : Fs.write (pdf_path_of resume_file) (stream resume_file) (fs w0)
                  = inr f1) by exact Hw.
    rewrite Hv, (analyze_try_saved E _ _ _ _ Hw0).
    destruct (extract_returns E (pdf_path_of resume_file) (with_fs w0 f1))
      as (text & w2 & Hx & Hf2 & Hn2).
    rewrite (after_save_stages E _ jd_text text _ w2 Hx).
    rewrite (parse_resume_no_client E text w2 Hc).
    rewrite (parse_job_description_no_client E jd_text w2 Hc).
    rewrite (get_final_json_analysis_no_client E _ _ w2 Hc).
    change (json_loads E (Some (dumps mock_result)))
      with (loads E (dumps mock_result)).
    rewrite Hl.
    destruct (cleanup_after_write (pdf_path_of resume_file) (stream resume_file)
                (fs w) f1 w2 Hw Hf2) as (l & _ & _ & _ & Hcl).
    rewrite Hcl. simpl. split; [reflexivity | exact Hn2]. }
  split; [|split; [|split; [|split; [|split; [|split]]]]].
  - intros pr pj w1. now apply get_final_json_analysis_no_client.
  - exact Hok.
  - intros e Hw.
    assert (Hw0 : Fs.write (pdf_path_of resume_file) (stream resume_file) (fs w0)
                  = inl e) by exact Hw.
    now rewrite Hv, (analyze_try_save_fails E _ _ _ _ Hw0).
  - intros H500.
    destruct (Fs.write (pdf_path_of resume_file) (stream resume_file) (fs w))
      as [e|f1] eqn:Hw; [eauto |].
    destruct (Hok f1 eq_refl) as [H200 _]. rewrite H200 in H500. discriminate.
  - reflexivity.
  - reflexivity.
  - reflexivity.
Qed.

Lemma analyze_without_client_witness :
  client (Ref.env Ref.one_page None) = None
  /\ loads (Ref.env Ref.one_page None) (dumps mock_result) = inr mock_result
  /\ files_resume (Ref.valid_request Ref.cv) = Some Ref.cv
  /\ form_job_description (Ref.valid_request Ref.cv) = Some Ref.jd
  /\ Ref.jd <> ""
  /\ Fs.write "uploads/temp_cv.pdf" (stream Ref.cv) (fs Ref.w0)
     = inr (fs Ref.w_cv_saved)
  /\ fst (analyze (Ref.env Ref.one_page None) (Ref.valid_request Ref.cv) Ref.w0)
     = Response 200 mock_result.
Proof.
  assert (Hl : loads (Ref.env Ref.one_page None) (dumps mock_result)
               = inr mock_result) by (vm_compute; reflexivity).
  assert (Hw : Fs.write "uploads/temp_cv.pdf" (stream Ref.cv) (fs Ref.w0)
               = inr (fs Ref.w_cv_saved)) by (vm_compute; reflexivity).
  split; [reflexivity |]. split; [exact Hl |].
  split; [reflexivity |]. split; [reflexivity |].
  split; [discriminate |]. split; [exact Hw |].
  pose proof (analyze_without_client (Ref.env Ref.one_page None)
                (Ref.valid_request Ref.cv) Ref.w0 Ref.cv Ref.jd
                eq_refl Hl eq_refl eq_refl ltac:(discriminate)) as H.
  destruct H as (_ & H & _).
  exact (proj1 (H (fs Ref.w_cv_saved) Hw)).
Defined.

(* ===================================================================== *)
(** ** Resubmission against a deterministic backend *)
(* ===================================================================== *)

Section Resubmission.

Variable E : Env.
Hypothesis Hdet : deterministic E.

Lemma files_only_ret {A} (a : A) : files_only (ret a).
Proof. intros w1 w2 H. split; [reflexivity | exact H]. Qed.

Lemma files_only_lift {A} (r : Py.result A) : files_only (lift r).
Proof. intros w1 w2 H. split; [reflexivity | exact H]. Qed.

Lemma files_only_bind {A B} (c : M A) (k : A -> M B) :
  files_only c -> (forall a, files_only (k a)) -> files_only (bind c k).
Proof.
  intros Hc Hk w1 w2 H. unfold bind.
  destruct (Hc w1 w2 H) as [Hr Hf].
  destruct (c w1) as [r1 w1'], (c w2) as [r2 w2']. simpl in Hr, Hf.
  subst r2. destruct r1 as [e|a]; [split; [reflexivity | exact Hf] |].
  now apply Hk.
Qed.

Lemma files_only_fs_update (op : Fs.fs -> Py.result Fs.fs) :
  files_only (fs_update op).
Proof.
  intros w1 w2 H. unfold fs_update. rewrite H.
  destruct (op (fs w2)); split; auto.
Qed.

Lemma files_only_cleanup (pdf_path : string) : files_only (cleanup pdf_path).
Proof.
  intros w1 w2 H. unfold cleanup. rewrite H.
  destruct (Fs.exists_ pdf_path (fs w2)).
  - now apply files_only_fs_update.
  - now apply files_only_ret.
Qed.

Lemma files_only_extract (pdf_path : string) :
  files_only (extract_text_from_pdf E pdf_path).
Proof.
  intros w1 w2 H. unfold extract_text_from_pdf. rewrite H.
  destruct (Fs.read pdf_path (fs w2)) as [e|data]; [split; auto |].
  destruct (PdfReader E data) as [e|pages]; [split; auto |].
  destruct (read_pages pages "") as [text [e|]]; split; auto.
Qed.

Lemma files_only_generate (c : backend) (call : gen_call) :
  client E = Some c -> files_only (generate_content c call).
Proof.
  intros Hc w1 w2 H. unfold generate_content. simpl.
  split; [apply (Hdet c Hc) | exact H].
Qed.

Lemma files_only_parse_resume (text : string) :
  files_only (parse_resume E text).
Proof.
  unfold parse_resume. destruct (client E) as [c|] eqn:Hc.
  - now apply files_only_generate.
  - apply files_only_ret.
Qed.

Lemma files_only_parse_job_description (jd_text : string) :
  files_only (parse_job_description E jd_text).
Proof.
  unfold parse_job_description. destruct (client E) as [c|] eqn:Hc.
  - now apply files_only_generate.
  - apply files_only_ret.
Qed.

Lemma files_only_get_final_json_analysis (pr pj : option string) :
  files_only (get_final_json_analysis E pr pj).
Proof.
  unfold get_final_json_analysis. destruct (client E) as [c|] eqn:Hc.
  - now apply files_only_generate.
  - apply files_only_ret.
Qed.

Lemma files_only_after_save (pdf_path jd_text : string) :
  files_only (after_save E pdf_path jd_text).
Proof.
  unfold after_save.
  apply files_only_bind; [apply files_only_extract | intros text].
  apply files_only_bind; [apply files_only_parse_resume | intros pr].
  apply files_only_bind; [apply files_only_parse_job_description | intros pj].
  apply files_only_bind; [apply files_only_get_final_json_analysis | intros raw].
  apply files_only_bind; [apply files_only_lift | intros d].
  apply files_only_bind; [apply files_only_cleanup | intros _].
  apply files_only_ret.
Qed.

Lemma files_only_analyze_try (resume_file : upload) (jd_text : string) :
  files_only (analyze_try E resume_file jd_text).
Proof.
  unfold analyze_try.
  apply files_only_bind; [apply files_only_fs_update | intros _].
  apply (files_only_after_save (pdf_path_of resume_file) jd_text).
Qed.

(** The answer of the handler depends on the files only. *)
Lemma analyze_files_only (req : request) (w1 w2 : world) :
  fs w1 = fs w2 -> fst (analyze E req w1) = fst (analyze E req w2).
Proof.
  intros H. unfold analyze.
  destruct (files_resume req) as [resume_file|]; [|reflexivity].
  destruct (negb (Py.truthy (form_job_description req))); [reflexivity |].
  set (w1' := print _ w1). set (w2' := print _ w2).
  assert (H' : fs w1' = fs w2') by exact H.
  destruct (files_only_analyze_try resume_file
              (Py.str (form_job_description req)) w1' w2' H') as [Hr _].
  destruct (analyze_try E _ _ w1') as [r1 v1], (analyze_try E _ _ w2') as [r2 v2].
  simpl in Hr. subst r2. destruct r1; reflexivity.
Qed.

(** The files after a request: as before, or with the temporary file
    written, or with the temporary file written and removed. *)
Lemma analyze_files_after (req : request) (w : world) :
  fs (snd (analyze E req w)) = fs w
  \/ exists resume_file l,
       files_resume req = Some resume_file
       /\ Fs.resolve (fs w) (pdf_path_of resume_file) = inr l
       /\ Fs.is_dir (fs w) l = false
       /\ (fs (snd (analyze E req w))
           = Fs.with_files (fs w) (<[l := stream resume_file]> (Fs.files (fs w)))
           \/ fs (snd (analyze E req w))
              = Fs.with_files (fs w) (delete l (Fs.files (fs w)))).
Proof.
  unfold analyze.
  destruct (files_resume req) as [resume_file|]; [|now left].
  destruct (negb (Py.truthy (form_job_description req))); [now left |].
  set (w0 := print _ w).
  destruct (Fs.write (pdf_path_of resume_file) (stream resume_file) (fs w0))
    as [e|f1] eqn:Hw.
  - rewrite (analyze_try_save_fails E _ _ _ _ Hw). now left.
  - rewrite (analyze_try_saved E _ _ _ _ Hw). right.
    destruct (after_save_files E (pdf_path_of resume_file)
                (Py.str (form_job_description req))
                (stream resume_file) (fs w) f1 (with_fs w0 f1) Hw eq_refl)
      as (l & Hr & Hd & Hf1 & Hfiles).
    exists resume_file, l. repeat split; auto.
    destruct (after_save E _ _ (with_fs w0 f1)) as [[e|d] w']; simpl.
    + left. congruence.
    + right. exact Hfiles.
Qed.

(** Saving the same upload again gives the same files. *)
Lemma write_again (path : string) (data : Fs.bytes) (f : Fs.fs) (l : Fs.loc) :
  Fs.resolve f path = inr l -> Fs.is_dir f l = false ->
  let f1 := Fs.with_files f (<[l := data]> (Fs.files f)) in
  Fs.write path data f = inr f1
  /\ Fs.write path data f1 = inr f1
  /\ Fs.write path data (Fs.with_files f (delete l (Fs.files f))) = inr f1.
Proof.
  intros Hr Hd f1. split; [|split].
  - unfold Fs.write. now rewrite Hr, Hd.
  - unfold f1. rewrite (write_with_files path data f l _ Hr Hd).
    now rewrite insert_insert_eq.
  - rewrite (write_with_files path data f l _ Hr Hd).
    now rewrite insert_delete_eq.
Qed.

End Resubmission.

Section SameTree.

Variable E : Env.
Hypothesis Hdet : deterministic E.

Lemma same_tree_files (f1 f2 : Fs.fs) :
  same_tree f1 f2 -> f2 = Fs.with_files f1 (Fs.files f2).
Proof.
  destruct f1, f2. intros [Hc Hd]. simpl in *. subst. reflexivity.
Qed.

Lemma extract_depends_on_read (pdf_path : string) (w1 w2 : world) :
  Fs.read pdf_path (fs w1) = Fs.read pdf_path (fs w2) ->
  fst (extract_text_from_pdf E pdf_path w1)
  = fst (extract_text_from_pdf E pdf_path w2).
Proof.
  intros H. unfold extract_text_from_pdf. rewrite H.
  destruct (Fs.read pdf_path (fs w2)) as [e|data]; [reflexivity |].
  destruct (PdfReader E data) as [e|pages]; [reflexivity |].
  destruct (read_pages pages "") as [text [e|]]; reflexivity.
Qed.

Lemma parse_resume_any_world (text : string) (w1 w2 : world) :
  fst (parse_resume E text w1) = fst (parse_resume E text w2).
Proof.
  unfold parse_resume. destruct (client E) as [c|] eqn:Hc; [|reflexivity].
  apply (Hdet c Hc).
Qed.

Lemma parse_job_description_any_world (jd_text : string) (w1 w2 : world) :
  fst (parse_job_description E jd_text w1)
  = fst (parse_job_description E jd_text w2).
Proof.
  unfold parse_job_description.
  destruct (client E) as [c|] eqn:Hc; [|reflexivity].
  apply (Hdet c Hc).
Qed.

Lemma get_final_json_analysis_any_world (pr pj : option string)
    (w1 w2 : world) :
  fst (get_final_json_analysis E pr pj w1)
  = fst (get_final_json_analysis E pr pj w2).
Proof.
  unfold get_final_json_analysis.
  destruct (client E) as [c|] eqn:Hc; [|reflexivity].
  apply (Hdet c Hc).
Qed.

Lemma cleanup_saved (path : string) (data : Fs.bytes) (w : world) :
  saved_at path data (fs w) -> fst (cleanup path w) = inr tt.
Proof.
  intros (_ & Hex & f' & Hrm). unfold cleanup, fs_update.
  now rewrite Hex, Hrm.
Qed.

(** What the statements after the save compute, as a function of the
    results of the stages. *)
Lemma after_save_result (path jd_text : string) (data : Fs.bytes) (w1 : world) :
  saved_at path data (fs w1) ->
  exists text w2 r3 w3 r4 w4 r5 w5,
    extract_text_from_pdf E path w1 = (inr text, w2)
    /\ parse_resume E text w2 = (r3, w3)
    /\ (forall pr, r3 = inr pr -> parse_job_description E jd_text w3 = (r4, w4))
    /\ (forall pr pj,
          r3 = inr pr -> r4 = inr pj ->
          get_final_json_analysis E pr pj w4 = (r5, w5))
    /\ fst (after_save E path jd_text w1)
       = match r3 with
         | inl e => inl e
         | inr _ =>
             match r4 with
             | inl e => inl e
             | inr _ =>
                 match r5 with
                 | inl e => inl e
                 | inr raw => json_loads E raw
                 end
             end
         end.
Proof.
  intros Hs.
  destruct (extract_returns E path w1) as (text & w2 & Hx & Hf2 & _).
  rewrite (after_save_stages E path jd_text text w1 w2 Hx).
  destruct (parse_resume E text w2) as [r3 w3] eqn:H3.
  destruct (parse_resume_one_call E text w2 r3 w3 H3) as (Hf3 & _).
  destruct r3 as [e|pr].
  { exists text, w2, (inl e), w3, (inl e), w3, (inl e), w3.
    repeat split; auto; intros; discriminate. }
  destruct (parse_job_description E jd_text w3) as [r4 w4] eqn:H4.
  destruct (parse_job_description_one_call E jd_text w3 r4 w4 H4) as (Hf4 & _).
  destruct r4 as [e|pj].
  { exists text, w2, (inr pr), w3, (inl e), w4, (inl e), w4.
    repeat split; auto; intros; discriminate. }
  destruct (get_final_json_analysis E pr pj w4) as [r5 w5] eqn:H5.
  destruct (get_final_json_analysis_one_call E pr pj w4 r5 w5 H5) as (Hf5 & _).
  exists text, w2, (inr pr), w3, (inr pj), w4, r5, w5.
  split; [exact Hx |]. split; [exact H3 |].
  split; [intros ? _; exact H4 |].
  split; [intros ? ? [= <-] [= <-]; exact H5 |].
  destruct r5 as [e|raw]; [reflexivity |].
  destruct (json_loads E raw) as [e|d]; [reflexivity |].
  assert (Hs5 : saved_at path data (fs w5)).
  { rewrite Hf5, Hf4, Hf3, Hf2. exact Hs. }
  pose proof (cleanup_saved path data w5 Hs5) as Hc.
  destruct (cleanup path w5) as [[e|[]] w6]; simpl in Hc;
    [discriminate | reflexivity].
Qed.

(** With the upload saved, the result of the remaining statements is
    the same in any two worlds. *)
Lemma after_save_saved (path jd_text : string) (data : Fs.bytes)
    (w1 w1' : world) :
  saved_at path data (fs w1) -> saved_at path data (fs w1') ->
  fst (after_save E path jd_text w1) = fst (after_save E path jd_text w1').
Proof.
  intros Hs Hs'.
  destruct (after_save_result path jd_text data w1 Hs)
    as (t & w2 & r3 & w3 & r4 & w4 & r5 & w5 & Hx & H3 & H4 & H5 & ->).
  destruct (after_save_result path jd_text data w1' Hs')
    as (t' & w2' & r3' & w3' & r4' & w4' & r5' & w5' & Hx' & H3' & H4' & H5' & ->).
  assert (Ht : t' = t).
  { assert (Hrd : Fs.read path (fs w1) = Fs.read path (fs w1')).
    { destruct Hs as [-> _], Hs' as [-> _]. reflexivity. }
    pose proof (extract_depends_on_read path w1 w1' Hrd) as H.
    rewrite Hx, Hx' in H. simpl in H. now injection H. }
  subst t'.
  assert (Hr3 : r3' = r3).
  { pose proof (parse_resume_any_world t w2 w2') as H.
    now rewrite H3, H3' in H. }
  subst r3'. destruct r3 as [e|pr]; [reflexivity |].
  assert (Hr4 : r4' = r4).
  { pose proof (parse_job_description_any_world jd_text w3 w3') as H.
    now rewrite (H4 pr eq_refl), (H4' pr eq_refl) in H. }
  subst r4'. destruct r4 as [e|pj]; [reflexivity |].
  assert (Hr5 : r5' = r5).
  { pose proof (get_final_json_analysis_any_world pr pj w4 w4') as H.
    now rewrite (H5 pr pj eq_refl eq_refl), (H5' pr pj eq_refl eq_refl) in H. }
  subst r5'. reflexivity.
Qed.

(** The answer in two worlds with the same directories: the status is
    the same, and so is the whole answer when the upload is saved. *)
Lemma analyze_same_tree (req : request) (w1 w2 : world) :
  same_tree (fs w1) (fs w2) ->
  status (fst (analyze E req w1)) = status (fst (analyze E req w2))
  /\ (status (fst (analyze E req w1)) = 200%Z ->
      fst (analyze E req w2) = fst (analyze E req w1)).
Proof.
  intros Ht. unfold analyze.
  destruct (files_resume req) as [resume_file|]; [|split; reflexivity].
  destruct (negb (Py.truthy (form_job_description req)));
    [split; reflexivity |].
  set (jd_text := Py.str (form_job_description req)).
  set (v1 := print _ w1). set (v2 := print _ w2).
  set (path := pdf_path_of resume_file). set (data := stream resume_file).
  destruct (Fs.write path data (fs v1)) as [e1|f1] eqn:Hw1.
  - rewrite (analyze_try_save_fails E _ _ _ _ Hw1).
    split; [|discriminate].
    destruct (Fs.write path data (fs v2)) as [e2|f2] eqn:Hw2.
    + now rewrite (analyze_try_save_fails E _ _ _ _ Hw2).
    + exfalso. apply write_inv in Hw2 as (l & Hr & Hd & _).
      assert (Hsym : same_tree (fs w2) (fs w1))
        by (destruct Ht; split; congruence).
      change (fs v2) with (fs w2) in Hr, Hd.
      change (fs v1) with (fs w1) in Hw1.
      rewrite (same_tree_files _ _ Hsym) in Hw1.
      rewrite (write_with_files path data (fs w2) l _ Hr Hd) in Hw1.
      discriminate.
  - apply write_inv in Hw1 as (l & Hr & Hd & Hf1).
    change (fs v1) with (fs w1) in Hr, Hd, Hf1.
    assert (Hw2 : Fs.write path data (fs v2)
                  = inr (Fs.with_files (fs w1)
                           (<[l := data]> (Fs.files (fs w2))))).
    { change (fs v2) with (fs w2). rewrite (same_tree_files _ _ Ht) at 1.
      now apply write_with_files. }
    assert (Hw1 : Fs.write path data (fs v1) = inr f1).
    { change (fs v1) with (fs w1). subst f1. unfold Fs.write.
      now rewrite Hr, Hd. }
    rewrite (analyze_try_saved E _ _ _ _ Hw1).
    rewrite (analyze_try_saved E _ _ _ _ Hw2).
    fold path. fold jd_text.
    assert (Hsaved : forall m,
              saved_at path data (Fs.with_files (fs w1) (<[l := data]> m))).
    { intros m. split; [now apply read_with_file |].
      split; [now apply exists_with_file |].
      eexists. now apply remove_with_file. }
    pose proof (after_save_saved path jd_text data
                  (with_fs v1 f1)
                  (with_fs v2 (Fs.with_files (fs w1)
                                 (<[l := data]> (Fs.files (fs w2)))))) as Heq.
    simpl in Heq. rewrite Hf1 in Heq at 1.
    specialize (Heq (Hsaved _) (Hsaved _)).
    destruct (after_save E path jd_text (with_fs v1 f1)) as [r1 u1].
    destruct (after_save E path jd_text (with_fs v2 _)) as [r2 u2].
    simpl in Heq. subst r2. destruct r1; split; reflexivity.
Qed.

End SameTree.

(** C8.  Against a deterministic stub backend the answer of the handler
    does not depend on what earlier requests printed or sent; the same
    request submitted again right after the first run gets the same
    answer, status and body; and in any two worlds with the same
    directories, whatever files earlier requests left, the status is
    the same and a 200 answer has the same body. *)
Theorem resubmission_gives_same_answer (E : Env) (req : request) (w : world) :
  deterministic E ->
  (forall w2, fs w2 = fs w -> fst (analyze E req w2) = fst (analyze E req w))
  /\ fst (analyze E req (snd (analyze E req w))) = fst (analyze E req w)
  /\ (forall w2,
        same_tree (fs w) (fs w2) ->
        status (fst (analyze E req w)) = status (fst (analyze E req w2))
        /\ (status (fst (analyze E req w)) = 200%Z ->
            fst (analyze E req w2) = fst (analyze E req w))).
Proof.
  intros Hdet. split; [|split].
  - intros w2 H. now apply analyze_files_only.
  - destruct (analyze_files_after E req w)
      as [H | (resume_file & l & Hf & Hr & Hd & H)].
    + now apply analyze_files_only.
    + set (w' := snd (analyze E req w)) in *.
      destruct (Py.truthy (form_job_description req)) eqn:Ht.
      2:{ unfold analyze. rewrite Hf, Ht. reflexivity. }
      apply truthy_true in Ht as (jd_text & Hjd & Hne & _).
      rewrite !(analyze_valid E req resume_file jd_text _ Hf Hjd Hne).
      set (w0 := print _ w). set (w0' := print _ w').
      destruct (write_again (pdf_path_of resume_file) (stream resume_file)
                  (fs w) l Hr Hd) as (Hw1 & Hw2 & Hw3).
      set (f1 := Fs.with_files (fs w)
                   (<[l := stream resume_file]> (Fs.files (fs w)))) in *.
      assert (Hw0 : Fs.write (pdf_path_of resume_file) (stream resume_file)
                      (fs w0) = inr f1) by exact Hw1.
      assert (Hw0' : Fs.write (pdf_path_of resume_file) (stream resume_file)
                       (fs w0') = inr f1).
      { change (fs w0') with (fs w'). destruct H as [-> | ->]; assumption. }
      rewrite (analyze_try_saved E _ _ _ _ Hw0).
      rewrite (analyze_try_saved E _ _ _ _ Hw0').
      destruct (files_only_after_save E Hdet (pdf_path_of resume_file) jd_text
                  (with_fs w0' f1) (with_fs w0 f1) eq_refl) as [Hres _].
      destruct (after_save E _ _ (with_fs w0' f1)) as [r1 v1].
      destruct (after_save E _ _ (with_fs w0 f1)) as [r2 v2].
      simpl in Hres. subst r2. destruct r1; reflexivity.
  - intros w2 Ht. now apply analyze_same_tree.
Qed.

Lemma resubmission_gives_same_answer_witness :
  deterministic (Ref.env Ref.one_page (Some Ref.stub_good))
  /\ fst (analyze (Ref.env Ref.one_page (Some Ref.stub_good))
            (Ref.valid_request Ref.cv)
            (snd (analyze (Ref.env Ref.one_page (Some Ref.stub_good))
                    (Ref.valid_request Ref.cv) Ref.w0)))
     = fst (analyze (Ref.env Ref.one_page (Some Ref.stub_good))
              (Ref.valid_request Ref.cv) Ref.w0).
Proof.
  assert (Hdet : deterministic (Ref.env Ref.one_page (Some Ref.stub_good))).
  { intros c Hc h1 h2 call. injection Hc as <-. reflexivity. }
  split; [exact Hdet |].
  exact (proj1 (proj2 (resubmission_gives_same_answer
                         (Ref.env Ref.one_page (Some Ref.stub_good))
                         (Ref.valid_request Ref.cv) Ref.w0 Hdet))).
Defined.

(** What the third part leaves open is the message of a save that
    fails: a temporary file left by a failed request turns ``no such
    file'' into ``not a directory'' for a later request whose file name
    goes through it. *)
Example leftover_file_changes_save_message :
  let E := Ref.env Ref.one_page (Some Ref.stub_prose) in
  let after_failed_request := snd (analyze E (Ref.valid_request Ref.cv) Ref.w0) in
  fst (analyze E (Ref.valid_request Ref.cv_under_file) Ref.w0)
  = Response 500
      (JObj [("error",
              JStr "Analysis failed: [Errno 2] No such file or directory: 'uploads/temp_cv.pdf/x'")])
  /\ fst (analyze E (Ref.valid_request Ref.cv_under_file) after_failed_request)
     = Response 500
         (JObj [("error",
                 JStr "Analysis failed: [Errno 20] Not a directory: 'uploads/temp_cv.pdf/x'")]).
Proof. split; vm_compute; reflexivity. Qed.

(** Without the hypothesis the two answers can differ: a backend that
    numbers its answers. *)
Example counting_backend_differs :
  fst (analyze (Ref.env Ref.one_page (Some Ref.counting_backend))
         (Ref.valid_request Ref.cv)
         (snd (analyze (Ref.env Ref.one_page (Some Ref.counting_backend))
                 (Ref.valid_request Ref.cv) Ref.w0)))
  <> fst (analyze (Ref.env Ref.one_page (Some Ref.counting_backend))
            (Ref.valid_request Ref.cv) Ref.w0).
Proof. vm_compute. discriminate. Qed.

(* ===================================================================== *)
(** ** The path of the temporary file *)
(* ===================================================================== *)

(** Path resolution looks every component up in
    an existing directory, so as long as the upload folder has no
    subdirectory, a save that succeeds writes directly into the upload
    folder, whatever the file name. *)
Section Confinement.
Local Open Scope list_scope.

Lemma split_slash_cons (s : string) :
  exists p ps, Fs.split_slash s = p :: ps.
Proof.
  induction s as [|c s (p & ps & IH)]; simpl; [eauto |].
  rewrite IH. destruct (Ascii.eqb c "/"); eauto.
Qed.

Lemma split_slash_temp (name : string) :
  exists p ps,
    Fs.split_slash ("uploads/temp_" +:+ name)
    = "uploads" :: ("temp_" +:+ p) :: ps.
Proof.
  destruct (split_slash_cons name) as (p & ps & H).
  exists p, ps.
  rewrite !append_cons. change ("" +:+ name) with name.
  cbn [Fs.split_slash]. rewrite H. reflexivity.
Qed.

Lemma writes_confined_without_subdirs (f f' : Fs.fs) (resume_file : upload) :
  (forall name, Fs.is_dir f (uploads_of f ++ [name]) = false) ->
  Fs.write (pdf_path_of resume_file) (stream resume_file) f = inr f' ->
  exists name,
    f' = Fs.with_files f
           (<[uploads_of f ++ [name] := stream resume_file]> (Fs.files f)).
Proof.
  intros Hsub Hw. apply write_inv in Hw as (l & Hr & _ & ->).
  enough (exists name, l = uploads_of f ++ [name]) as (name & ->) by eauto.
  rewrite pdf_path_of_eq in Hr. unfold Fs.resolve in Hr.
  destruct (Fs.has_nul _); [discriminate |].
  rewrite append_cons in Hr.
  change (String.eqb (String "u" ("ploads/temp_" +:+ filename resume_file)) "")
    with false in Hr.
  change (String.prefix "/" (String "u" ("ploads/temp_" +:+ filename resume_file)))
    with false in Hr.
  rewrite <- append_cons in Hr.
  change (String "u" "ploads/temp_") with "uploads/temp_" in Hr.
  destruct (split_slash_temp (filename resume_file)) as (p & ps & Hs).
  rewrite Hs in Hr. cbn [Fs.walk] in Hr.
  destruct (Fs.is_dir f (Fs.cwd f)).
  2:{ destruct (Fs.is_file f (Fs.cwd f)); discriminate. }
  change (String.eqb "uploads" "" || String.eqb "uploads" ".") with false in Hr.
  change (String.eqb "uploads" "..") with false in Hr.
  cbn iota in Hr. change (Fs.cwd f ++ ["uploads"]) with (uploads_of f) in Hr.
  destruct (Fs.is_dir f (uploads_of f)).
  2:{ destruct (Fs.is_file f (uploads_of f)); discriminate. }
  rewrite append_cons in Hr.
  change (String.eqb (String "t" ("emp_" +:+ p)) "") with false in Hr.
  assert (Hdot : String.eqb (String "t" ("emp_" +:+ p)) "." = false)
    by reflexivity.
  assert (Hdots : String.eqb (String "t" ("emp_" +:+ p)) ".." = false)
    by reflexivity.
  rewrite Hdot, Hdots in Hr. cbn [orb] in Hr. cbn iota in Hr.
  destruct ps as [|c ps]; cbn [Fs.walk] in Hr.
  - injection Hr as <-. eauto.
  - rewrite Hsub in Hr.
    destruct (Fs.is_file f _); discriminate.
Qed.

Lemma fresh_uploads_has_no_subdir (name : string) :
  Fs.is_dir Ref.fresh_fs (uploads_of Ref.fresh_fs ++ [name]) = false.
Proof.
  unfold Fs.is_dir. apply bool_decide_eq_false.
  assert (Hd : Fs.dirs Ref.fresh_fs
               = {[ ["srv"; "ats"; "uploads"] ]}
                   ∪ {[ []; ["srv"]; ["srv"; "ats"] ]})
    by (vm_compute; reflexivity).
  rewrite Hd. change (uploads_of Ref.fresh_fs) with ["srv"; "ats"; "uploads"].
  cbn [app]. intros Hin.
  repeat match goal with
         | H : _ ∈ _ ∪ _ |- _ => apply elem_of_union in H as [H|H]
         end;
    apply elem_of_singleton in Hin; discriminate.
Qed.

(** On the fresh file system every save that succeeds lands in the
    upload folder. *)
Example fresh_uploads_confine_writes (resume_file : upload) (f' : Fs.fs) :
  Fs.write (pdf_path_of resume_file) (stream resume_file) Ref.fresh_fs = inr f' ->
  exists name,
    f' = Fs.with_files Ref.fresh_fs
           (<[ ["srv"; "ats"; "uploads"; name] := stream resume_file]>
              (Fs.files Ref.fresh_fs)).
Proof.
  intros Hw.
  exact (writes_confined_without_subdirs Ref.fresh_fs f' resume_file
           fresh_uploads_has_no_subdir Hw).
Qed.

End Confinement.

(* ===================================================================== *)
(** ** The start of the module *)
(* ===================================================================== *)

(** The client is [None] exactly when the constructor raised; an absent
    or empty key reaches the constructor as the empty string. *)
Lemma init_client_none (key : option string)
    (Client : string -> Py.result backend) :
  fst (init_client key Client) = None
  <-> exists e, Client (Py.or_empty key) = inl e.
Proof.
  unfold init_client, Py.or_empty.
  destruct (Client (if Py.truthy key then Py.str key else "")) as [e|c]; simpl.
  - split; eauto.
  - split; [discriminate | intros (e & He); discriminate].
Qed.

(* ===================================================================== *)
(** ** Further properties of the handler *)
(* ===================================================================== *)

Section Handler.

Variable E : Env.

(** The value a successful [try] body returns was decoded by
    [json.loads] from a text. *)
Lemma analyze_try_decoded (resume_file : upload) (jd_text : string)
    (w w' : world) (d : json) :
  analyze_try E resume_file jd_text w = (inr d, w') ->
  exists raw, json_loads E raw = inr d.
Proof.
  intros Ha.
  destruct (Fs.write (pdf_path_of resume_file) (stream resume_file) (fs w))
    as [e|f1] eqn:Hw.
  { rewrite (analyze_try_save_fails E _ _ _ _ Hw) in Ha. discriminate. }
  rewrite (analyze_try_saved E _ _ _ _ Hw) in Ha.
  destruct (extract_returns E (pdf_path_of resume_file) (with_fs w f1))
    as (text & w2 & Hx & _).
  rewrite (after_save_stages E _ jd_text text _ w2 Hx) in Ha.
  destruct (parse_resume E text w2) as [[e|pr] w3]; [discriminate |].
  destruct (parse_job_description E jd_text w3) as [[e|pj] w4]; [discriminate |].
  destruct (get_final_json_analysis E pr pj w4) as [[e|raw] w5]; [discriminate |].
  destruct (json_loads E raw) as [e|d'] eqn:Hj; [discriminate |].
  destruct (cleanup (pdf_path_of resume_file) w5) as [[e|[]] w6];
    [discriminate |].
  injection Ha as <- _. eauto.
Qed.

(** With a client, the statements after the save are the three calls
    one after the other, each on the calls made so far. *)
Lemma after_save_live (c : backend) (path jd_text text : string)
    (w1 w2 : world) :
  client E = Some c ->
  extract_text_from_pdf E path w1 = (inr text, w2) ->
  net w2 = net w1 ->
  let h := net w1 in
  let c1 := resume_call text in
  let c2 := jd_call jd_text in
  after_save E path jd_text w1
  = match c h c1 with
    | inl e => (inl e, sent c1 w2)
    | inr pr =>
        match c (h ++ [c1])%list c2 with
        | inl e => (inl e, sent c2 (sent c1 w2))
        | inr pj =>
            let c3 := final_call pr pj in
            let w5 := sent c3 (sent c2 (sent c1 w2)) in
            match c (h ++ [c1; c2])%list c3 with
            | inl e => (inl e, w5)
            | inr raw =>
                match json_loads E raw with
                | inl e => (inl e, w5)
                | inr final_data =>
                    match cleanup path w5 with
                    | (inl e, w6) => (inl e, w6)
                    | (inr _, w6) => (inr final_data, w6)
                    end
                end
            end
        end
    end.
Proof.
  intros Hc Hx Hn h c1 c2.
  rewrite (after_save_stages E path jd_text text w1 w2 Hx).
  rewrite (parse_resume_live E c text w2 Hc). rewrite Hn. fold h c1.
  destruct (c h c1) as [e|pr]; [reflexivity |].
  rewrite (parse_job_description_live E c jd_text _ Hc).
  change (net (sent c1 w2)) with (net w2 ++ [c1])%list. rewrite Hn. fold h c2.
  destruct (c (h ++ [c1])%list c2) as [e|pj]; [reflexivity |].
  rewrite (get_final_json_analysis_live E c pr pj _ Hc).
  change (net (sent c2 (sent c1 w2))) with ((net w2 ++ [c1]) ++ [c2])%list.
  rewrite Hn, <- app_assoc. reflexivity.
Qed.

End Handler.

(** X1.  Every answer of the handler is a 400, a 500 or a 200.  A 400
    carries one of the two validation messages and leaves files and
    network alone.  A 500 is given to a request that passed validation,
    its body is [{"error": "Analysis failed: <message>"}], and the last
    line printed is [Internal Error: <message>] with the same message.
    A 200 is given to a request that passed validation and its body was
    decoded by [json.loads]. *)
Theorem analyze_response_shape (E : Env) (req : request) (w : world) :
  let resp := fst (analyze E req w) in
  let w' := snd (analyze E req w) in
  (status resp = 400%Z
   /\ (body resp = JObj [("error", JStr "Resume PDF is required")]
       \/ body resp = JObj [("error", JStr "Job description is required")])
   /\ fs w' = fs w /\ net w' = net w)
  \/ (status resp = 500%Z
      /\ valid req
      /\ exists e out,
           body resp = JObj [("error", JStr ("Analysis failed: " +:+ e))]
           /\ stdout w' = (out ++ ["Internal Error: " +:+ e])%list)
  \/ (status resp = 200%Z
      /\ valid req
      /\ exists raw, json_loads E raw = inr (body resp)).
Proof.
  unfold analyze.
  destruct (files_resume req) as [resume_file|] eqn:Hf.
  2:{ left. simpl. auto. }
  destruct (Py.truthy (form_job_description req)) eqn:Ht.
  2:{ left. simpl. auto. }
  assert (Hv : valid req) by (split; [rewrite Hf; eauto | exact Ht]).
  cbn [negb].
  destruct (analyze_try E resume_file (Py.str (form_job_description req)) _)
    as [[e|d] w''] eqn:Ha.
  - right. left. simpl. split; [reflexivity |]. split; [exact Hv |].
    exists e, (stdout w''). split; reflexivity.
  - right. right. simpl. split; [reflexivity |]. split; [exact Hv |].
    exact (analyze_try_decoded E _ _ _ _ _ Ha).
Qed.

(** X2.  With a client, a 200 answer means that exactly three calls
    went out, in this order: the resume call on the text extracted from
    the saved upload, the job description call, and the synthesis call
    whose prompt carries the answers of the first two; the body is what
    [json.loads] decodes from the answer to the third. *)
Theorem analyze_200_calls (E : Env) (c : backend) (req : request) (w : world) :
  client E = Some c ->
  status (fst (analyze E req w)) = 200%Z ->
  exists resume_file jd_text f1 text w2 pr pj raw,
    files_resume req = Some resume_file
    /\ form_job_description req = Some jd_text
    /\ Fs.write (pdf_path_of resume_file) (stream resume_file) (fs w) = inr f1
    /\ extract_text_from_pdf E (pdf_path_of resume_file)
         (with_fs (print (debug_line resume_file (Some jd_text)) w) f1)
       = (inr text, w2)
    /\ c (net w) (resume_call text) = inr pr
    /\ c (net w ++ [resume_call text])%list (jd_call jd_text) = inr pj
    /\ c (net w ++ [resume_call text; jd_call jd_text])%list (final_call pr pj)
       = inr raw
    /\ json_loads E raw = inr (body (fst (analyze E req w)))
    /\ net (snd (analyze E req w))
       = (net w ++ [resume_call text; jd_call jd_text; final_call pr pj])%list.
Proof.
  intros Hc Hs.
  destruct (files_resume req) as [resume_file|] eqn:Hf.
  2:{ unfold analyze in Hs. rewrite Hf in Hs. discriminate. }
  destruct (Py.truthy (form_job_description req)) eqn:Ht.
  2:{ unfold analyze in Hs. rewrite Hf, Ht in Hs. discriminate. }
  apply truthy_true in Ht as (jd_text & Hjd & Hne & _).
  rewrite (analyze_valid E req resume_file jd_text w Hf Hjd Hne) in Hs |- *.
  set (w0 := print _ w) in *.
  destruct (Fs.write (pdf_path_of resume_file) (stream resume_file) (fs w0))
    as [e|f1] eqn:Hw.
  { rewrite (analyze_try_save_fails E _ _ _ _ Hw) in Hs. discriminate. }
  rewrite (analyze_try_saved E _ _ _ _ Hw) in Hs |- *.
  destruct (extract_returns E (pdf_path_of resume_file) (with_fs w0 f1))
    as (text & w2 & Hx & _ & Hn2).
  change (net (with_fs w0 f1)) with (net w) in Hn2.
  assert (Hlive := after_save_live E c (pdf_path_of resume_file) jd_text text
                     (with_fs w0 f1) w2 Hc Hx Hn2).
  cbv zeta in Hlive. change (net (with_fs w0 f1)) with (net w) in Hlive.
  rewrite Hlive in Hs |- *. clear Hlive.
  destruct (c (net w) (resume_call text)) as [e|pr] eqn:H1; [discriminate |].
  destruct (c (net w ++ [resume_call text])%list (jd_call jd_text))
    as [e|pj] eqn:H2; [discriminate |].
  destruct (c (net w ++ [resume_call text; jd_call jd_text])%list
              (final_call pr pj)) as [e|raw] eqn:H3; [discriminate |].
  destruct (json_loads E raw) as [e|d] eqn:Hj; [discriminate |].
  pose proof (cleanup_net (pdf_path_of resume_file)
                (sent (final_call pr pj)
                   (sent (jd_call jd_text) (sent (resume_call text) w2)))) as Hcn.
  destruct (cleanup (pdf_path_of resume_file) _) as [[e|[]] w6];
    [discriminate |].
  exists resume_file, jd_text, f1, text, w2, pr, pj, raw.
  repeat split; auto.
  simpl in Hcn |- *. rewrite Hcn, Hn2, <- !app_assoc. reflexivity.
Qed.

Lemma analyze_200_calls_witness :
  client (Ref.env Ref.one_page (Some Ref.stub_good)) = Some Ref.stub_good
  /\ status (fst (analyze (Ref.env Ref.one_page (Some Ref.stub_good))
                    (Ref.valid_request Ref.cv) Ref.w0)) = 200%Z
  /\ length (net (snd (analyze (Ref.env Ref.one_page (Some Ref.stub_good))
                         (Ref.valid_request Ref.cv) Ref.w0))) = 3.
Proof.
  assert (Hs : status (fst (analyze (Ref.env Ref.one_page (Some Ref.stub_good))
                              (Ref.valid_request Ref.cv) Ref.w0)) = 200%Z)
    by (vm_compute; reflexivity).
  split; [reflexivity |]. split; [exact Hs |].
  destruct (analyze_200_calls (Ref.env Ref.one_page (Some Ref.stub_good))
              Ref.stub_good (Ref.valid_request Ref.cv) Ref.w0 eq_refl Hs)
    as (up & jd & f1 & text & w2 & pr & pj & raw & _ & _ & _ & _ & _ & _ & _ & _ & Hn).
  rewrite Hn. reflexivity.
Defined.

(* ===================================================================== *)
(** ** Start without a usable key *)
(* ===================================================================== *)

Lemma after_save_no_client_net (E : Env) (path jd_text : string) (w1 : world) :
  client E = None ->
  net (snd (after_save E path jd_text w1)) = net w1.
Proof.
  intros Hc.
  destruct (extract_returns E path w1) as (text & w2 & Hx & _ & Hn2).
  rewrite (after_save_stages E path jd_text text w1 w2 Hx).
  rewrite (parse_resume_no_client E text w2 Hc).
  rewrite (parse_job_description_no_client E jd_text w2 Hc).
  rewrite (get_final_json_analysis_no_client E _ _ w2 Hc).
  destruct (json_loads E (Some (dumps mock_result))) as [e|d]; [exact Hn2 |].
  pose proof (cleanup_net path w2) as Hcn.
  destruct (cleanup path w2) as [[e|[]] w6]; simpl in *; congruence.
Qed.

(** X3.  When the client constructor raises at the start of the module
    (as it does for an absent key, which reaches it as the empty
    string), one line is printed at the start and the global client is
    [None]; from then on no request, valid or not, sends a call to the
    generation service. *)
Theorem failed_start_sends_no_calls (GEMINI_API_KEY : option string)
    (Client : string -> Py.result backend) (e : Py.exn) (E : Env)
    (req : request) (w : world) :
  Client (Py.or_empty GEMINI_API_KEY) = inl e ->
  client E = fst (init_client GEMINI_API_KEY Client) ->
  snd (init_client GEMINI_API_KEY Client)
  = ["CRITICAL ERROR: Failed to initialize Gemini Client. Check your API Key. Details: "
       +:+ e]
  /\ client E = None
  /\ net (snd (analyze E req w)) = net w.
Proof.
  intros He Hc.
  assert (Hi : init_client GEMINI_API_KEY Client
               = (None,
                  ["CRITICAL ERROR: Failed to initialize Gemini Client. Check your API Key. Details: "
                     +:+ e])).
  { unfold init_client. unfold Py.or_empty in He. now rewrite He. }
  rewrite Hi in Hc |- *. simpl in Hc.
  split; [reflexivity |]. split; [exact Hc |].
  unfold analyze.
  destruct (files_resume req) as [resume_file|]; [|reflexivity].
  destruct (negb (Py.truthy (form_job_description req))); [reflexivity |].
  set (w0 := print _ w).
  destruct (Fs.write (pdf_path_of resume_file) (stream resume_file) (fs w0))
    as [e'|f1] eqn:Hw.
  - now rewrite (analyze_try_save_fails E _ _ _ _ Hw).
  - rewrite (analyze_try_saved E _ _ _ _ Hw).
    pose proof (after_save_no_client_net E (pdf_path_of resume_file)
                  (Py.str (form_job_description req)) (with_fs w0 f1) Hc) as Hn.
    destruct (after_save E _ _ (with_fs w0 f1)) as [[e'|d] w']; exact Hn.
Qed.

Lemma failed_start_sends_no_calls_witness :
  Ref.genai_Client (Py.or_empty None) = inl "Missing key inputs argument!"
  /\ client (Ref.env Ref.one_page (fst (init_client None Ref.genai_Client)))
     = fst (init_client None Ref.genai_Client)
  /\ net (snd (analyze
                 (Ref.env Ref.one_page (fst (init_client None Ref.genai_Client)))
                 (Ref.valid_request Ref.cv) Ref.w0))
     = net Ref.w0.
Proof.
  split; [reflexivity |]. split; [reflexivity |].
  exact (proj2 (proj2 (failed_start_sends_no_calls None Ref.genai_Client
                         "Missing key inputs argument!"
                         (Ref.env Ref.one_page
                            (fst (init_client None Ref.genai_Client)))
                         (Ref.valid_request Ref.cv) Ref.w0 eq_refl eq_refl))).
Defined.

(* ===================================================================== *)
(** ** What a request does to the file system *)
(* ===================================================================== *)

(** X4.  A request never changes the working directory or the set of
    directories.  Its files are left as they were (a request that is
    rejected, or whose save raises), or they differ at the one location
    the temporary path resolves to: after a 500 that location holds the
    uploaded bytes, after a 200 it holds nothing, whatever it held
    before the request. *)
Theorem analyze_file_system_effect (E : Env) (req : request) (w : world) :
  let resp := fst (analyze E req w) in
  let w' := snd (analyze E req w) in
  Fs.cwd (fs w') = Fs.cwd (fs w)
  /\ Fs.dirs (fs w') = Fs.dirs (fs w)
  /\ (Fs.files (fs w') = Fs.files (fs w)
      \/ exists resume_file l,
           files_resume req = Some resume_file
           /\ Fs.resolve (fs w) (pdf_path_of resume_file) = inr l
           /\ ((status resp = 500%Z
                /\ Fs.files (fs w')
                   = <[l := stream resume_file]> (Fs.files (fs w)))
               \/ (status resp = 200%Z
                   /\ Fs.files (fs w') = delete l (Fs.files (fs w))))).
Proof.
  unfold analyze.
  destruct (files_resume req) as [resume_file|]; [|simpl; auto].
  destruct (negb (Py.truthy (form_job_description req))); [simpl; auto |].
  set (w0 := print _ w).
  destruct (Fs.write (pdf_path_of resume_file) (stream resume_file) (fs w0))
    as [e|f1] eqn:Hw.
  - rewrite (analyze_try_save_fails E _ _ _ _ Hw). simpl. auto.
  - rewrite (analyze_try_saved E _ _ _ _ Hw).
    destruct (after_save_files E (pdf_path_of resume_file)
                (Py.str (form_job_description req))
                (stream resume_file) (fs w) f1 (with_fs w0 f1) Hw eq_refl)
      as (l & Hr & Hd & Hf1 & Hfiles).
    destruct (after_save E _ _ (with_fs w0 f1)) as [[e|d] w'']; simpl;
      rewrite Hfiles; try rewrite Hf1; simpl.
    + split; [reflexivity |]. split; [reflexivity |].
      right. exists resume_file, l. auto.
    + split; [reflexivity |]. split; [reflexivity |].
      right. exists resume_file, l. auto.
Qed.

(** X5.  After a 200 answer nothing exists at the temporary path of the
    request: the saved upload was removed, together with whatever file
    was at that path before. *)
Theorem analyze_200_removes_temp_file (E : Env) (req : request) (w : world)
    (resume_file : upload) :
  files_resume req = Some resume_file ->
  status (fst (analyze E req w)) = 200%Z ->
  Fs.exists_ (pdf_path_of resume_file) (fs (snd (analyze E req w))) = false.
Proof.
  intros Hf Hs. unfold analyze in *. rewrite Hf in *.
  destruct (negb (Py.truthy (form_job_description req))); [discriminate |].
  set (w0 := print _ w) in *.
  destruct (Fs.write (pdf_path_of resume_file) (stream resume_file) (fs w0))
    as [e|f1] eqn:Hw.
  - rewrite (analyze_try_save_fails E _ _ _ _ Hw) in Hs. discriminate.
  - rewrite (analyze_try_saved E _ _ _ _ Hw) in Hs |- *.
    destruct (after_save_files E (pdf_path_of resume_file)
                (Py.str (form_job_description req))
                (stream resume_file) (fs w) f1 (with_fs w0 f1) Hw eq_refl)
      as (l & Hr & Hd & Hf1 & Hfiles).
    destruct (after_save E _ _ (with_fs w0 f1)) as [[e|d] w''];
      [discriminate |].
    simpl. rewrite Hfiles. now apply exists_without_file.
Qed.

Lemma analyze_200_removes_temp_file_witness :
  files_resume (Ref.valid_request Ref.cv) = Some Ref.cv
  /\ status (fst (analyze (Ref.env Ref.one_page (Some Ref.stub_good))
                    (Ref.valid_request Ref.cv) Ref.w_cv_saved)) = 200%Z
  /\ Fs.exists_ "uploads/temp_cv.pdf" (fs Ref.w_cv_saved) = true
  /\ Fs.exists_ "uploads/temp_cv.pdf"
       (fs (snd (analyze (Ref.env Ref.one_page (Some Ref.stub_good))
                   (Ref.valid_request Ref.cv) Ref.w_cv_saved))) = false.
Proof.
  assert (Hs : status (fst (analyze (Ref.env Ref.one_page (Some Ref.stub_good))
                              (Ref.valid_request Ref.cv) Ref.w_cv_saved))
               = 200%Z) by (vm_compute; reflexivity).
  split; [reflexivity |]. split; [exact Hs |].
  split; [vm_compute; reflexivity |].
  exact (analyze_200_removes_temp_file
           (Ref.env Ref.one_page (Some Ref.stub_good))
           (Ref.valid_request Ref.cv) Ref.w_cv_saved Ref.cv eq_refl Hs).
Defined.

(* ===================================================================== *)
(** ** Where the upload is written *)
(* ===================================================================== *)

Section Placement.
Local Open Scope list_scope.



Lemma split_slash_plain (s : string) :
  has_slash s = false -> Fs.split_slash s = [s].
Proof.
  induction s as [|c s IH]; cbn [has_slash Fs.split_slash]; [reflexivity |].
  intros H. apply orb_false_iff in H as [Hc Hs].
  rewrite Hc, (IH Hs). reflexivity.
Qed.

End Placement.



(** X7.  For a file name without a path separator, a save that
    succeeds has written the upload directly in the upload folder,
    under [temp_] followed by the name, and has changed nothing else. *)
Theorem plain_filename_lands_in_uploads (resume_file : upload) (w w1 : world) :
  has_slash (filename resume_file) = false ->
  save resume_file (pdf_path_of resume_file) w = (inr tt, w1) ->
  w1 = with_fs w
         (Fs.with_files (fs w)
            (<[(uploads_of (fs w) ++ ["temp_" +:+ filename resume_file])%list
               := stream resume_file]> (Fs.files (fs w)))).
Proof.
  intros Hslash Hs. unfold save, fs_update in Hs.
  destruct (Fs.write (pdf_path_of resume_file) (stream resume_file) (fs w))
    as [e|f1] eqn:Hw; [discriminate |].
  injection Hs as <-.
  apply write_inv in Hw as (l & Hr & _ & ->).
  enough (l = (uploads_of (fs w) ++ ["temp_" +:+ filename resume_file])%list)
    as -> by reflexivity.
  rewrite pdf_path_of_eq in Hr. unfold Fs.resolve in Hr.
  destruct (Fs.has_nul _); [discriminate |].
  change (String.eqb ("uploads/temp_" +:+ filename resume_file) "")
    with false in Hr.
  change (String.prefix "/" ("uploads/temp_" +:+ filename resume_file))
    with false in Hr.
  cbn iota in Hr.
  assert (Hsp : Fs.split_slash ("uploads/temp_" +:+ filename resume_file)
                = ["uploads"; "temp_" +:+ filename resume_file]).
  { rewrite !append_cons. change ("" +:+ filename resume_file)
      with (filename resume_file).
    cbn [Fs.split_slash]. rewrite (split_slash_plain _ Hslash). reflexivity. }
  rewrite Hsp in Hr. cbn [Fs.walk] in Hr.
  destruct (Fs.is_dir (fs w) (Fs.cwd (fs w))).
  2:{ destruct (Fs.is_file (fs w) (Fs.cwd (fs w))); discriminate. }
  change (String.eqb "uploads" "" || String.eqb "uploads" ".") with false in Hr.
  change (String.eqb "uploads" "..") with false in Hr.
  cbn iota in Hr.
  change (Fs.cwd (fs w) ++ ["uploads"])%list with (uploads_of (fs w)) in Hr.
  destruct (Fs.is_dir (fs w) (uploads_of (fs w))).
  2:{ destruct (Fs.is_file (fs w) (uploads_of (fs w))); discriminate. }
  change (String.eqb ("temp_" +:+ filename resume_file) ""
          || String.eqb ("temp_" +:+ filename resume_file) ".") with false in Hr.
  change (String.eqb ("temp_" +:+ filename resume_file) "..") with false in Hr.
  cbn iota in Hr. now injection Hr as <-.
Qed.

Lemma plain_filename_lands_in_uploads_witness :
  has_slash (filename Ref.cv) = false
  /\ save Ref.cv (pdf_path_of Ref.cv) Ref.w0 = (inr tt, Ref.w_cv_saved)
  /\ Fs.files (fs Ref.w_cv_saved) !! ["srv"; "ats"; "uploads"; "temp_cv.pdf"]
     = Some (stream Ref.cv).
Proof.
  assert (Hs : save Ref.cv (pdf_path_of Ref.cv) Ref.w0 = (inr tt, Ref.w_cv_saved))
    by (vm_compute; reflexivity).
  split; [reflexivity |]. split; [exact Hs |].
  rewrite (plain_filename_lands_in_uploads Ref.cv Ref.w0 Ref.w_cv_saved
             eq_refl Hs).
  apply lookup_insert_eq.
Defined.

(* ===================================================================== *)
(** ** Answers without text, and the text that is extracted *)
(* ===================================================================== *)

(** X8.  When the three calls are answered but the answer to the
    synthesis call carries no text ([response.text] is [None]), the
    request ends with 500 and the message of the [TypeError] that
    [json.loads(None)] raises. *)
Theorem synthesis_without_text_is_a_500 (E : Env) (c : backend) (req : request)
    (w : world) (resume_file : upload) (jd_text : string) (f1 : Fs.fs)
    (text : string) (w2 : world) (pr pj : option string) :
  client E = Some c ->
  files_resume req = Some resume_file ->
  form_job_description req = Some jd_text -> jd_text <> "" ->
  Fs.write (pdf_path_of resume_file) (stream resume_file) (fs w) = inr f1 ->
  extract_text_from_pdf E (pdf_path_of resume_file)
    (with_fs (print (debug_line resume_file (Some jd_text)) w) f1)
  = (inr text, w2) ->
  c (net w) (resume_call text) = inr pr ->
  c (net w ++ [resume_call text])%list (jd_call jd_text) = inr pj ->
  c (net w ++ [resume_call text; jd_call jd_text])%list (final_call pr pj)
  = inr None ->
  fst (analyze E req w)
  = Response 500
      (JObj [("error",
              JStr "Analysis failed: the JSON object must be str, bytes or bytearray, not NoneType")]).
Proof.
  intros Hc Hf Hjd Hne Hw Hx H1 H2 H3.
  rewrite (analyze_valid E req resume_file jd_text w Hf Hjd Hne).
  set (w0 := print _ w) in *.
  assert (Hw0 : Fs.write (pdf_path_of resume_file) (stream resume_file) (fs w0)
                = inr f1) by exact Hw.
  rewrite (analyze_try_saved E _ _ _ _ Hw0).
  destruct (extract_returns E (pdf_path_of resume_file) (with_fs w0 f1))
    as (text' & w2' & Hx' & _ & Hn2).
  rewrite Hx in Hx'. injection Hx' as <- <-.
  change (net (with_fs w0 f1)) with (net w) in Hn2.
  assert (Hlive := after_save_live E c (pdf_path_of resume_file) jd_text text
                     (with_fs w0 f1) w2 Hc Hx Hn2).
  cbv zeta in Hlive. change (net (with_fs w0 f1)) with (net w) in Hlive.
  rewrite Hlive, H1, H2, H3. reflexivity.
Qed.

Lemma synthesis_without_text_is_a_500_witness :
  client (Ref.env Ref.one_page (Some Ref.stub_no_text)) = Some Ref.stub_no_text
  /\ files_resume (Ref.valid_request Ref.cv) = Some Ref.cv
  /\ form_job_description (Ref.valid_request Ref.cv) = Some Ref.jd
  /\ Ref.jd <> ""
  /\ Fs.write (pdf_path_of Ref.cv) (stream Ref.cv) (fs Ref.w0)
     = inr (fs Ref.w_cv_saved)
  /\ Ref.stub_no_text [resume_call "Jane Doe. Python, SQL."; jd_call Ref.jd]
       (final_call (Some "- Python") (Some "- Python"))
     = inr None
  /\ fst (analyze (Ref.env Ref.one_page (Some Ref.stub_no_text))
            (Ref.valid_request Ref.cv) Ref.w0)
     = Response 500
         (JObj [("error",
                 JStr "Analysis failed: the JSON object must be str, bytes or bytearray, not NoneType")]).
Proof.
  assert (Hw : Fs.write (pdf_path_of Ref.cv) (stream Ref.cv) (fs Ref.w0)
               = inr (fs Ref.w_cv_saved)) by (vm_compute; reflexivity).
  split; [reflexivity |]. split; [reflexivity |]. split; [reflexivity |].
  split; [discriminate |]. split; [exact Hw |]. split; [reflexivity |].
  exact (synthesis_without_text_is_a_500
           (Ref.env Ref.one_page (Some Ref.stub_no_text)) Ref.stub_no_text
           (Ref.valid_request Ref.cv) Ref.w0 Ref.cv Ref.jd (fs Ref.w_cv_saved)
           "Jane Doe. Python, SQL."
           (with_fs (print (debug_line Ref.cv (Some Ref.jd)) Ref.w0)
              (fs Ref.w_cv_saved))
           (Some "- Python") (Some "- Python")
           eq_refl eq_refl eq_refl ltac:(discriminate) Hw
           ltac:(vm_compute; reflexivity) eq_refl eq_refl eq_refl).
Defined.

(** X9.  The text extracted right after a save is that of the bytes
    just saved, whatever file was at the path before: the empty string
    when PyPDF2 refuses the bytes, else the concatenation of the pages
    it extracts from them. *)
Theorem extract_reads_the_saved_upload (E : Env) (resume_file : upload)
    (pdf_path : string) (w w1 : world) :
  save resume_file pdf_path w = (inr tt, w1) ->
  fst (extract_text_from_pdf E pdf_path w1)
  = inr match PdfReader E (stream resume_file) with
        | inl _ => ""
        | inr pages => concat_pages (pages_read pages)
        end.
Proof.
  unfold save, fs_update. intros Hs.
  destruct (Fs.write pdf_path (stream resume_file) (fs w)) as [e|f1] eqn:Hw;
    [discriminate |].
  injection Hs as <-.
  apply write_inv in Hw as (l & Hr & Hd & ->).
  unfold extract_text_from_pdf.
  change (fs (with_fs w ?f)) with f.
  rewrite (read_with_file pdf_path (stream resume_file) (fs w) l _ Hr Hd).
  destruct (PdfReader E (stream resume_file)) as [e|pages]; [reflexivity |].
  pose proof (read_pages_text pages "") as Ht.
  destruct (read_pages pages "") as [text [e|]]; cbn [fst] in Ht;
    subst text; reflexivity.
Qed.

Lemma extract_reads_the_saved_upload_witness :
  save Ref.cv "uploads/temp_cv.pdf" Ref.w_cv_saved = (inr tt, Ref.w_cv_saved)
  /\ fst (extract_text_from_pdf (Ref.env Ref.three_pages None)
            "uploads/temp_cv.pdf" Ref.w_cv_saved)
     = inr "Jane Doe. Python, SQL.".
Proof.
  assert (Hs : save Ref.cv "uploads/temp_cv.pdf" Ref.w_cv_saved
               = (inr tt, Ref.w_cv_saved)) by (vm_compute; reflexivity).
  split; [exact Hs |].
  exact (extract_reads_the_saved_upload (Ref.env Ref.three_pages None)
           Ref.cv "uploads/temp_cv.pdf" Ref.w_cv_saved Ref.w_cv_saved Hs).
Defined.

(* ===================================================================== *)
(** ** File names that leave the upload folder *)
(* ===================================================================== *)

Section Escape.
Local Open Scope list_scope.






End Escape.



